(** * Student-registration dashboard (streamlit_app.py): model and properties

    A shallow embedding of the data pipeline of [streamlit_app.py]:
    the cleaning of the loaded table, the per-dimension value counts, the
    derived household-income column and the section toggles of [main].

    Tables are pandas DataFrames: a row count and a finite map from column
    names to columns.  Streamlit calls append elements to the page; Python
    exceptions are explicit results. *)

From Stdlib Require Import ZArith Lia.
From stdpp Require Import gmap strings list fin_maps sorting.

Local Set Warnings "-clear-no-such-hyp".

(** ** Python values held in table cells *)

(** A cell of a table read by [pd.read_csv]: a missing value, a string, or
    a number (kept as an integer; no property below reads a number). *)
Inductive cell :=
| NaN
| Str (s : string)
| Num (z : Z).

#[global] Instance cell_eq_dec : EqDecision cell.
Proof. solve_decision. Defined.

(** Python [v == 'literal'] for a cell [v]: true only on the same string. *)
Definition py_eq (v : cell) (lit : string) : bool :=
  match v with
  | Str s => bool_decide (s = lit)
  | _ => false
  end.

(** ** Exceptions *)

Inductive exn :=
| KeyError (key : string)
| IndexError
| ValueError (msg : string)
| OtherError (msg : string).

(** [str(e)] *)
Definition str_exn (e : exn) : string :=
  match e with
  | KeyError k => "'" +:+ k +:+ "'"
  | IndexError => "index 0 is out of bounds for axis 0 with size 0"
  | ValueError m => m
  | OtherError m => m
  end.

Inductive result (A : Type) :=
| Ok (a : A)
| Raise (e : exn).
Arguments Ok {A} a.
Arguments Raise {A} e.

#[global] Instance result_ret : MRet result := λ A a, Ok a.
#[global] Instance result_bind : MBind result := λ A B f m,
  match m with
  | Ok a => f a
  | Raise e => Raise e
  end.

(** ** The salary brackets *)

Definition create_salary_order : list string :=
  ["0 - 2.500.000"; "2.500.001 - 5.000.000"; "5.000.001 - 7.500.000";
   "7.500.001 - 10.000.000"; "10.000.001 - 20.000.000"; "20.000.001 - 50.000.000";
   "50.000.001 - 100.000.000"].

(** ** The derived household-income category (nested in [income_analysis]) *)

Definition get_max_income (income_range : cell) : Z :=
  if py_eq income_range "0 - 2.500.000" then 2500000
  else if py_eq income_range "2.500.001 - 5.000.000" then 5000000
  else if py_eq income_range "5.000.001 - 7.500.000" then 7500000
  else if py_eq income_range "7.500.001 - 10.000.000" then 10000000
  else if py_eq income_range "10.000.001 - 20.000.000" then 20000000
  else if py_eq income_range "20.000.001 - 50.000.000" then 50000000
  else if py_eq income_range "50.000.001 - 100.000.000" then 100000000
  else 0.

(** The [if total <= ...: ... elif ...] chain of [get_income_category],
    as a function of [total]. *)
Definition income_bucket (total : Z) : string :=
  if (total <=? 5000000)%Z then "≤ 5 Juta"
  else if (total <=? 10000000)%Z then "5-10 Juta"
  else if (total <=? 20000000)%Z then "10-20 Juta"
  else if (total <=? 50000000)%Z then "20-50 Juta"
  else "> 50 Juta".

Definition get_income_category (father_income mother_income : cell) : string :=
  let father_max := get_max_income father_income in
  let mother_max := get_max_income mother_income in
  let total := (father_max + mother_max)%Z in
  income_bucket total.

(** The five labels of the combined category, lowest bucket first. *)
Definition income_categories : list string :=
  ["≤ 5 Juta"; "5-10 Juta"; "10-20 Juta"; "20-50 Juta"; "> 50 Juta"].

(** The numeric upper bounds of the seven brackets, in bracket order. *)
Definition bracket_bounds : list Z :=
  [2500000; 5000000; 7500000; 10000000; 20000000; 50000000; 100000000]%Z.

(** ** pandas: Series of value counts *)

(** The result of [Series.value_counts()]: labels with their counts. *)
Abbreviation counts := (list (cell * nat)).

(** One step of the counting hash table: bump the count of [x], or append
    it with count 1 (keys stay in order of first appearance). *)
Fixpoint bump (x : cell) (t : counts) : counts :=
  match t with
  | [] => [(x, 1)]
  | (y, n) :: t' => if decide (x = y) then (y, S n) :: t' else (y, n) :: bump x t'
  end.

Definition tally (col : list cell) : counts :=
  foldl (λ t x, bump x t) [] col.

(** [Series.dropna()] *)
Definition dropna (col : list cell) : list cell :=
  filter (λ v, v ≠ NaN) col.

(** Descending order on counts, the order of [value_counts]. *)
Definition count_ge (a b : cell * nat) : Prop := b.2 ≤ a.2.

#[global] Instance count_ge_dec : RelDecision count_ge.
Proof. intros a b. unfold count_ge. apply _. Defined.

(** The descending sort of [value_counts]: an entry goes in front of the
    first entry that does not count more, so that equal counts stay in
    their order of first appearance. *)
Fixpoint insert_count (e : cell * nat) (s : counts) : counts :=
  match s with
  | [] => [e]
  | e' :: s' => if decide (e.2 < e'.2) then e' :: insert_count e s' else e :: s
  end.

Definition sort_counts (t : counts) : counts := foldr insert_count [] t.

(** [Series.value_counts()]: missing values are dropped, the remaining
    values counted, and the counts sorted in descending order.  Equal
    counts come in their order of first appearance, as pandas gives them
    on a short series; pandas does not fix that order in general, and
    nothing below depends on it. *)
Definition value_counts (col : list cell) : counts :=
  sort_counts (tally (dropna col)).

(** [Series.head(n)] *)
Definition head (n : nat) (s : counts) : counts := take n s.

(** [Series.nunique()] *)
Definition nunique (col : list cell) : nat := length (tally (dropna col)).

(** [x in series.index] *)
Definition in_index (x : cell) (s : counts) : bool :=
  bool_decide (x ∈ s.*1).

(** [s.get(x)]: the count stored under the label [x], if there is one. *)
Fixpoint loc (s : counts) (x : cell) : option nat :=
  match s with
  | [] => None
  | (y, n) :: s' => if decide (x = y) then Some n else loc s' x
  end.

(** [Series.reindex(labels)]: one entry per requested label, with the
    value found under that label, or a missing value when the label is
    not in the index. *)
Definition reindex (s : counts) (labels : list cell) : list (cell * option nat) :=
  (λ x, (x, loc s x)) <$> labels.

(** [[x for x in salary_order if x in income.index]] followed by
    [income.reindex(...)], as in [income_analysis]. *)
Definition income_ordered (income : counts) : list (cell * option nat) :=
  let salary_order := Str <$> create_salary_order in
  reindex income (filter (λ x, in_index x income) salary_order).

(** Number of occurrences of a value in a column. *)
Definition occurrences (v : cell) (col : list cell) : nat :=
  length (filter (λ y, y = v) col).

(** ** pandas: DataFrame *)

(** A table: the length of its row index and its columns by name. *)
Record DataFrame := mkDataFrame {
  nrows : nat;
  columns : gmap string (list cell)
}.

#[global] Instance DataFrame_eq_dec : EqDecision DataFrame.
Proof. solve_decision. Defined.

(** Every column has one cell per row. *)
Definition well_formed (df : DataFrame) : Prop :=
  map_Forall (λ _ col, length col = nrows df) (columns df).

#[global] Instance well_formed_dec df : Decision (well_formed df).
Proof. unfold well_formed. apply _. Defined.

(** [df[col]]: raises [KeyError] when there is no such column. *)
Definition getitem (df : DataFrame) (col : string) : result (list cell) :=
  match columns df !! col with
  | Some c => Ok c
  | None => Raise (KeyError col)
  end.

(** [df[col] = values]: replaces the column, or adds it. *)
Definition setitem (df : DataFrame) (col : string) (values : list cell) : DataFrame :=
  mkDataFrame (nrows df) (<[col := values]> (columns df)).

(** [Series.replace(to_replace, value)] *)
Definition replace (to_replace value : cell) (col : list cell) : list cell :=
  (λ v, if decide (v = to_replace) then value else v) <$> col.

(** [DataFrame.fillna(value)] *)
Definition fillna (value : cell) (df : DataFrame) : DataFrame :=
  mkDataFrame (nrows df)
    (fmap (M := list) (λ v, if decide (v = NaN) then value else v) <$> columns df).

(** ** clean_data *)

Definition salary_columns : list string := ["ayah_penghasilan"; "ibu_penghasilan"].

(** The body of [for col in salary_columns: df[col] = df[col].replace(...)]. *)
Definition clean_salary_column (df : DataFrame) (col : string) : result DataFrame :=
  c ← getitem df col;
  mret (setitem df col (replace (Str "\N") (Str "0 - 2.500.000") c)).

Fixpoint for_each {A S : Type} (body : S → A → result S) (s : S) (l : list A) : result S :=
  match l with
  | [] => mret s
  | x :: l' => s' ← body s x; for_each body s' l'
  end.

Definition clean_data (df : DataFrame) : result DataFrame :=
  df ← for_each clean_salary_column df salary_columns;
  let df := fillna (Str "Tidak Diketahui") df in
  mret df.

(** ** The Streamlit page *)

(** What a Streamlit call puts on the page.  Charts carry the labels and
    values handed to plotly; messages carry their text and the values the
    f-string interpolates (number formatting is not modelled); the
    two-column layout is not recorded. *)
Inductive element :=
| Title (text : string)
| Markdown (text : string)
| Header (text : string)
| Subheader (text : string)
| Pie (title : string) (names : list cell) (values : list (option nat))
| Bar (title : string) (labels : list cell) (values : list (option nat))
| BarCompare (title : string) (ayah ibu : counts)
| Metric (label : string) (value : nat)
| Info (text : string) (interpolated : list cell)
| Success (text : string) (interpolated : list cell)
| Write (text : string) (items : list string)
| Error (text : string)
| SidebarHeader (text : string)
| SidebarSubheader (text : string)
| SidebarSuccess (text : string) (records : nat)
| FileUploader (label : string)
| Checkbox (label : string) (value : bool)
| Expander (label : string)
| Dataframe (df : DataFrame)
| DownloadButton (label : string) (data : DataFrame) (file_name : string).

#[global] Instance element_eq_dec : EqDecision element.
Proof. solve_decision. Defined.

(** A computation that writes to the page and may raise: the page written
    so far stays when an exception is raised. *)
Definition St (A : Type) : Type := list element → result A * list element.

Definition st_ret {A} (a : A) : St A := λ page, (Ok a, page).

Definition st_bind {A B} (m : St A) (f : A → St B) : St B := λ page,
  match m page with
  | (Ok a, page') => f a page'
  | (Raise e, page') => (Raise e, page')
  end.

#[global] Instance St_ret : MRet St := @st_ret.
#[global] Instance St_bind : MBind St := λ A B f m, st_bind m f.

(** A pure computation that may raise, run inside a page computation. *)
Definition lift {A} (r : result A) : St A := λ page, (r, page).

Definition emit (e : element) : St unit := λ page, (Ok tt, page ++ [e]).

(** [try: body except Exception as e: handler(e)] *)
Definition try_except {A} (body : St A) (handler : exn → St A) : St A := λ page,
  match body page with
  | (Ok a, page') => (Ok a, page')
  | (Raise e, page') => handler e page'
  end.

(** [px.bar(x=labels, y=values, ...)] (or with the axes exchanged and
    [orientation='h']) followed by [st.plotly_chart]: plotly takes two
    empty arguments for two lists of columns and raises [ValueError];
    otherwise the chart goes on the page. *)
Definition px_bar (title : string) (labels : list cell) (values : list (option nat))
  : St unit :=
  match labels, values with
  | [], [] =>
      lift (Raise (ValueError
        "Cannot accept list of column references or list of columns for both `x` and `y`."))
  | _, _ => emit (Bar title labels values)
  end.

(** [st.sidebar.checkbox(label, value)]: shows the box and returns its
    state, which is [value] until the user has toggled it. *)
Definition checkbox (widget : string → option bool) (label : string) (value : bool)
  : St bool :=
  let state := default value (widget label) in
  emit (Checkbox label state);; mret state.

(** ** The series computed by the report sections *)

(** [s.index[0]] and [s.iloc[0]] *)
Definition index0 (s : counts) : result cell :=
  match s with
  | [] => Raise IndexError
  | e :: _ => Ok e.1
  end.

Definition iloc0 (s : counts) : result nat :=
  match s with
  | [] => Raise IndexError
  | e :: _ => Ok e.2
  end.

(** [s.index] and [s.values] as handed to the charts. *)
Definition index_of (s : counts) : list cell := s.*1.
Definition values_of (s : counts) : list (option nat) := Some <$> s.*2.

(** [df[col].value_counts()] *)
Definition column_counts (df : DataFrame) (col : string) : result counts :=
  c ← getitem df col; mret (value_counts c).

Definition domicile_counts (df : DataFrame) : result counts := column_counts df "domisili".
Definition category_counts (df : DataFrame) : result counts := column_counts df "kategori".
Definition province_counts (df : DataFrame) : result counts :=
  column_counts df "alamat_propinsi".
Definition regency_counts (df : DataFrame) : result counts :=
  s ← column_counts df "alamat_kabupaten"; mret (head 10 s).
Definition tujuan1_counts (df : DataFrame) : result counts := column_counts df "tujuan1".

Definition campus_cols : list string := ["kampus1"; "kampus2"; "kampus3"].

(** [all_campus.extend(df[col].dropna().tolist())] for each campus column. *)
Definition all_campus (df : DataFrame) : result (list cell) :=
  for_each (λ acc col, c ← getitem df col; mret (acc ++ dropna c)) [] campus_cols.

Definition campus_counts (df : DataFrame) : result counts :=
  l ← all_campus df; mret (value_counts l).

Definition ayah_edu (df : DataFrame) : result counts := column_counts df "ayah_pendidikan".
Definition ibu_edu (df : DataFrame) : result counts := column_counts df "ibu_pendidikan".
Definition ayah_job (df : DataFrame) : result counts :=
  s ← column_counts df "ayah_pekerjaan"; mret (head 8 s).
Definition ibu_job (df : DataFrame) : result counts :=
  s ← column_counts df "ibu_pekerjaan"; mret (head 8 s).
Definition ayah_income (df : DataFrame) : result counts :=
  column_counts df "ayah_penghasilan".
Definition ibu_income (df : DataFrame) : result counts :=
  column_counts df "ibu_penghasilan".
Definition school_province (df : DataFrame) : result counts :=
  column_counts df "propinsi_asal_sekolah".
Definition top_schools (df : DataFrame) : result counts :=
  s ← column_counts df "asal_sekolah"; mret (head 10 s).

(** ** The derived column *)

(** [row[col]] for the row at position [i]. *)
Definition row_item (df : DataFrame) (i : nat) (col : string) : result cell :=
  c ← getitem df col;
  match c !! i with
  | Some v => Ok v
  | None => Raise IndexError
  end.

(** [df.apply(f, axis=1)]: [f] applied to every row, in row order. *)
Definition apply_rows (df : DataFrame) (f : (string → result cell) → result cell)
  : result (list cell) :=
  mapM (λ i, f (row_item df i)) (seq 0 (nrows df)).

(** [lambda row: get_income_category(row['ayah_penghasilan'],
    row['ibu_penghasilan'])] *)
Definition combined_income_row (row : string → result cell) : result cell :=
  a ← row "ayah_penghasilan";
  b ← row "ibu_penghasilan";
  mret (Str (get_income_category a b)).

(** [df['combined_income_category'] = df.apply(lambda row: ..., axis=1)] *)
Definition add_combined_income_category (df : DataFrame) : result DataFrame :=
  col ← apply_rows df combined_income_row;
  mret (setitem df "combined_income_category" col).

(** ** The report sections *)

Definition summary_statistics (df : DataFrame) : St unit :=
  emit (Header "📈 Statistik Ringkasan");;
  emit (Metric "Total Calon Murid" (nrows df));;
  provinces ← lift (getitem df "alamat_propinsi");
  emit (Metric "Jumlah Provinsi" (nunique provinces));;
  schools ← lift (getitem df "asal_sekolah");
  emit (Metric "Jumlah Sekolah Asal" (nunique schools));;
  domisili ← lift (getitem df "domisili");
  let jawa_barat_count := length (filter (λ v, py_eq v "JAWA BARAT" = true) domisili) in
  emit (Metric "Siswa dari Jawa Barat" jawa_barat_count);;
  emit (Subheader "Insights Utama");;
  emit (Write "**Key Findings dari Analisis Data:**" []).

Definition demographic_analysis (df : DataFrame) : St unit :=
  emit (Header "📊 Analisis Demografis");;
  emit (Subheader "Distribusi Berdasarkan Domisili");;
  domicile_counts ← lift (domicile_counts df);
  emit (Pie "Sebaran Domisili Calon Murid"
          (index_of domicile_counts) (values_of domicile_counts));;
  top ← lift (index0 domicile_counts);
  n ← lift (iloc0 domicile_counts);
  emit (Info "**Insight:** {} mendominasi dengan {} siswa ({}/{})"
          [top; Num (Z.of_nat n); Num (Z.of_nat n); Num (Z.of_nat (nrows df))]);;
  emit (Subheader "Distribusi Berdasarkan Kategori");;
  category_counts ← lift (category_counts df);
  px_bar "Jumlah Calon Murid per Kategori"
    (index_of category_counts) (values_of category_counts);;
  top ← lift (index0 category_counts);
  n ← lift (iloc0 category_counts);
  emit (Info "**Insight:** Mayoritas pendaftar adalah kategori {} dengan {} siswa"
          [top; Num (Z.of_nat n)]).

Definition geographical_analysis (df : DataFrame) : St unit :=
  emit (Header "🗺️ Analisis Geografis");;
  emit (Subheader "Sebaran Berdasarkan Provinsi");;
  province_counts ← lift (province_counts df);
  px_bar "Distribusi Provinsi Asal"
    (index_of province_counts) (values_of province_counts);;
  emit (Subheader "Top 10 Kabupaten/Kota");;
  regency_counts ← lift (regency_counts df);
  px_bar "Top 10 Kabupaten/Kota Asal"
    (index_of regency_counts) (values_of regency_counts);;
  province ← lift (index0 province_counts);
  province_n ← lift (iloc0 province_counts);
  regency ← lift (index0 regency_counts);
  regency_n ← lift (iloc0 regency_counts);
  emit (Info "**Insights Geografis:** {} ({} siswa); {} ({} siswa); {} provinsi"
          [province; Num (Z.of_nat province_n); regency; Num (Z.of_nat regency_n);
           Num (Z.of_nat (length province_counts))]).

Definition school_preference_analysis (df : DataFrame) : St unit :=
  emit (Header "🎯 Analisis Preferensi Sekolah");;
  emit (Subheader "Pilihan Pertama (Tujuan 1)");;
  tujuan1_counts ← lift (tujuan1_counts df);
  emit (Pie "Distribusi Pilihan Pertama"
          (index_of tujuan1_counts) (values_of tujuan1_counts));;
  emit (Subheader "Preferensi Kampus");;
  campus_counts ← lift (campus_counts df);
  px_bar "Popularitas Kampus" (index_of campus_counts) (values_of campus_counts);;
  tujuan ← lift (index0 tujuan1_counts);
  tujuan_n ← lift (iloc0 tujuan1_counts);
  campus ← lift (index0 campus_counts);
  campus_n ← lift (iloc0 campus_counts);
  emit (Success "**Insights Preferensi:** {} ({} siswa); {} ({} pilihan)"
          [tujuan; Num (Z.of_nat tujuan_n); campus; Num (Z.of_nat campus_n)]).

Definition parent_education_analysis (df : DataFrame) : St unit :=
  emit (Header "🎓 Analisis Pendidikan Orang Tua");;
  emit (Subheader "Tingkat Pendidikan Ayah");;
  ayah_edu ← lift (ayah_edu df);
  emit (Pie "Distribusi Pendidikan Ayah" (index_of ayah_edu) (values_of ayah_edu));;
  emit (Subheader "Tingkat Pendidikan Ibu");;
  ibu_edu ← lift (ibu_edu df);
  emit (Pie "Distribusi Pendidikan Ibu" (index_of ibu_edu) (values_of ibu_edu));;
  emit (Subheader "Perbandingan Tingkat Pendidikan Orang Tua");;
  emit (BarCompare "Perbandingan Tingkat Pendidikan Ayah vs Ibu" ayah_edu ibu_edu).

Definition parent_occupation_analysis (df : DataFrame) : St unit :=
  emit (Header "💼 Analisis Pekerjaan Orang Tua");;
  emit (Subheader "Pekerjaan Ayah");;
  ayah_job ← lift (ayah_job df);
  px_bar "Top 8 Pekerjaan Ayah" (index_of ayah_job) (values_of ayah_job);;
  emit (Subheader "Pekerjaan Ibu");;
  ibu_job ← lift (ibu_job df);
  px_bar "Top 8 Pekerjaan Ibu" (index_of ibu_job) (values_of ibu_job);;
  ayah ← lift (index0 ayah_job);
  ayah_n ← lift (iloc0 ayah_job);
  ibu ← lift (index0 ibu_job);
  ibu_n ← lift (iloc0 ibu_job);
  emit (Info "**Insights Pekerjaan:** {} ({} orang); {} ({} orang)"
          [ayah; Num (Z.of_nat ayah_n); ibu; Num (Z.of_nat ibu_n)]).

(** [income_analysis] writes the derived column into the table it is
    given: the table it returns is that same object after the call, the
    one [main] goes on to use. *)
Definition income_analysis (df : DataFrame) : St DataFrame :=
  emit (Header "💰 Analisis Penghasilan Orang Tua");;
  emit (Subheader "Penghasilan Ayah");;
  ayah_income ← lift (ayah_income df);
  let ayah_income_ordered := income_ordered ayah_income in
  px_bar "Distribusi Penghasilan Ayah"
    ayah_income_ordered.*1 ayah_income_ordered.*2;;
  emit (Subheader "Penghasilan Ibu");;
  ibu_income ← lift (ibu_income df);
  let ibu_income_ordered := income_ordered ibu_income in
  px_bar "Distribusi Penghasilan Ibu"
    ibu_income_ordered.*1 ibu_income_ordered.*2;;
  emit (Subheader "Analisis Gabungan Penghasilan Keluarga");;
  df ← lift (add_combined_income_category df);
  combined_income ← lift (column_counts df "combined_income_category");
  emit (Pie "Estimasi Penghasilan Keluarga Gabungan"
          (index_of combined_income) (values_of combined_income));;
  mret df.

Definition school_origin_analysis (df : DataFrame) : St unit :=
  emit (Header "🏫 Analisis Asal Sekolah");;
  emit (Subheader "Provinsi Asal Sekolah");;
  school_province ← lift (school_province df);
  emit (Pie "Distribusi Provinsi Asal Sekolah"
          (index_of school_province) (values_of school_province));;
  emit (Subheader "Top 10 Asal Sekolah");;
  top_schools ← lift (top_schools df);
  px_bar "10 Sekolah Asal Terbanyak" (index_of top_schools) (values_of top_schools).

(** ** load_data and main *)

Inductive bad_lines := BadLinesError | BadLinesWarn | BadLinesSkip.

(** The keyword arguments of [pd.read_csv]. *)
Record csv_options := mkCsvOptions {
  delimiter : string;
  quotechar : string;
  on_bad_lines : bad_lines;
  encoding : string
}.

(** The arguments [load_data] passes: [delimiter] a semicolon,
    [quotechar] the double quote (character 34), [on_bad_lines='skip'],
    [encoding='utf-8']. *)
Definition load_options : csv_options :=
  mkCsvOptions ";" (String (Ascii.ascii_of_nat 34) "") BadLinesSkip "utf-8".

Definition expected_columns : list string :=
  ["nama_calon_murid"; "kategori"; "jalur"; "tujuan1"; "tujuan2"; "tujuan3";
   "kampus1"; "kampus2"; "kampus3"; "domisili"; "alamat_propinsi";
   "alamat_kabupaten"; "asal_sekolah"; "propinsi_asal_sekolah";
   "ayah_pendidikan"; "ayah_pekerjaan"; "ayah_penghasilan";
   "ibu_pendidikan"; "ibu_pekerjaan"; "ibu_penghasilan"].

Section Dashboard.

(** [pd.read_csv]: the parser of the pandas library, which returns a
    table or raises. *)
Variable read_csv : csv_options → string → result DataFrame.

(** The result cache of [@st.cache_data] is not modelled. *)
Definition load_data (file : string) : St (option DataFrame) :=
  try_except
    (df ← lift (read_csv load_options file);
     mret (Some df))
    (λ e,
     emit (Error ("Error loading CSV: " +:+ str_exn e));;
     mret None).

(** [uploaded_file] is what the file uploader returned and [widget] the
    state of the checkboxes the user has toggled. *)
Definition main (uploaded_file : option string) (widget : string → option bool)
  : St unit :=
  emit (Title "📊 Dashboard Analisis Data Pendaftaran Siswa");;
  emit (Markdown "---");;
  emit (SidebarHeader "⚙️ Pengaturan Analisis");;
  emit (FileUploader "Pilih file CSV data pendaftaran");;
  match uploaded_file with
  | Some uploaded_file =>
      try_except
        (df ← load_data uploaded_file;
         match df with
         | None => mret tt
         | Some df =>
             df ← lift (clean_data df);
             emit (SidebarSuccess "✅ Data berhasil dimuat! ({} records)" (nrows df));;
             emit (SidebarSubheader "Pilih Analisis");;
             show_summary ← checkbox widget "Statistik Ringkasan" true;
             show_demographic ← checkbox widget "Analisis Demografis" true;
             show_geographic ← checkbox widget "Analisis Geografis" true;
             show_preferences ← checkbox widget "Analisis Preferensi Sekolah" true;
             show_parent_education ← checkbox widget "Pendidikan Orang Tua" true;
             show_parent_occupation ← checkbox widget "Pekerjaan Orang Tua" true;
             show_income ← checkbox widget "Analisis Penghasilan" true;
             show_school_origin ← checkbox widget "Asal Sekolah" true;
             (if show_summary : bool
              then summary_statistics df;; emit (Markdown "---")
              else mret tt);;
             (if show_demographic : bool
              then demographic_analysis df;; emit (Markdown "---")
              else mret tt);;
             (if show_geographic : bool
              then geographical_analysis df;; emit (Markdown "---")
              else mret tt);;
             (if show_preferences : bool
              then school_preference_analysis df;; emit (Markdown "---")
              else mret tt);;
             (if show_parent_education : bool
              then parent_education_analysis df;; emit (Markdown "---")
              else mret tt);;
             (if show_parent_occupation : bool
              then parent_occupation_analysis df;; emit (Markdown "---")
              else mret tt);;
             df ← (if show_income : bool
                   then df ← income_analysis df; emit (Markdown "---");; mret df
                   else mret df);
             (if show_school_origin : bool
              then school_origin_analysis df;; emit (Markdown "---")
              else mret tt);;
             emit (Expander "👁️ Lihat Data Mentah");;
             emit (Dataframe df);;
             emit (DownloadButton "📥 Download Data yang Telah Diproses" df
                     "processed_student_data.csv")
         end)
        (λ e,
         emit (Error ("❌ Error memproses data: " +:+ str_exn e));;
         emit (Info "Pastikan format CSV sesuai dengan template yang diharapkan" []))
  | None =>
      emit (Info "📁 Silakan upload file CSV data pendaftaran siswa untuk memulai analisis" []);;
      emit (Expander "📋 Format Data yang Diharapkan");;
      emit (Write "Kolom yang diperlukan:" expected_columns)
  end.

End Dashboard.

(** ** The sections of the report and their toggles *)

Inductive section :=
| Summary | Demographic | Geographic | Preferences
| ParentEducation | ParentOccupation | Income | SchoolOrigin.


(** The header a section writes first. *)
Definition section_header (s : section) : string :=
  match s with
  | Summary => "📈 Statistik Ringkasan"
  | Demographic => "📊 Analisis Demografis"
  | Geographic => "🗺️ Analisis Geografis"
  | Preferences => "🎯 Analisis Preferensi Sekolah"
  | ParentEducation => "🎓 Analisis Pendidikan Orang Tua"
  | ParentOccupation => "💼 Analisis Pekerjaan Orang Tua"
  | Income => "💰 Analisis Penghasilan Orang Tua"
  | SchoolOrigin => "🏫 Analisis Asal Sekolah"
  end.


(** A section is rendered when its header is on the page. *)
Definition rendered (s : section) (page : list element) : Prop :=
  Header (section_header s) ∈ page.

#[global] Instance rendered_dec s page : Decision (rendered s page).
Proof. unfold rendered. apply _. Defined.


(** A loaded table on which every section can run: one cell per row in
    every column, at least one row, and the expected columns. *)
Definition reportable (df : DataFrame) : Prop :=
  well_formed df ∧ 0 < nrows df ∧
  Forall (λ c, is_Some (columns df !! c)) expected_columns.

#[global] Instance reportable_dec df : Decision (reportable df).
Proof. unfold reportable. apply _. Defined.

(** The column holds at least one of the seven bracket labels. *)
Definition has_bracket (col : list cell) : Prop :=
  Exists (λ v, v ∈ Str <$> create_salary_order) col.

#[global] Instance has_bracket_dec col : Decision (has_bracket col).
Proof. unfold has_bracket. apply _. Defined.

(** Each income column of a loaded table holds a bracket label, or the
    sentinel that [clean_data] turns into one. *)
Definition income_labelled (df : DataFrame) : Prop :=
  Forall (λ c, from_option
                 (Exists (λ v, v = Str "\N" ∨ v ∈ Str <$> create_salary_order))
                 False (columns df !! c))
         salary_columns.

#[global] Instance income_labelled_dec df : Decision (income_labelled df).
Proof.
  unfold income_labelled. apply Forall_dec. intros c.
  destruct (columns df !! c); simpl; apply _.
Defined.



(** ** Specification predicates for the value counts *)

(** [s] lists the [n] most frequent values of [col] in descending order of
    count: it has [n] entries (all of them when the column has fewer
    values), each a value of the column with its number of occurrences, no
    value twice, and no value left out occurs more often than a listed
    one. *)
Definition most_frequent (n : nat) (col : list cell) (s : counts) : Prop :=
  length s = n `min` nunique col ∧
  NoDup s.*1 ∧
  StronglySorted count_ge s ∧
  (∀ v k, (v, k) ∈ s → v ∈ col ∧ v ≠ NaN ∧ k = occurrences v col) ∧
  (∀ v, v ∈ col → v ≠ NaN → v ∉ s.*1 →
        ∀ w k, (w, k) ∈ s → occurrences v col ≤ k).

(** [s] lists every value of [col] with its number of occurrences. *)
Definition complete_counts (col : list cell) (s : counts) : Prop :=
  length s = nunique col ∧
  StronglySorted count_ge s ∧
  ∀ v k, (v, k) ∈ s ↔ v ∈ col ∧ v ≠ NaN ∧ k = occurrences v col.

(** A series of counts seen as a reindexed series (no value missing). *)
Definition as_reindexed (s : counts) : list (cell * option nat) :=
  (λ e, (e.1, Some e.2)) <$> s.

(** ** Further definitions used in the statements *)

(** A cell that holds none of the seven bracket labels. *)
Definition unrecognised (v : cell) : Prop :=
  ∀ s, s ∈ create_salary_order → v ≠ Str s.

(** What cleaning does to the cell [v] of the column named [col]. *)
Definition clean_cell (col : string) (v : cell) : cell :=
  if decide (v = NaN) then Str "Tidak Diketahui"
  else if decide (col ∈ salary_columns ∧ v = Str "\N") then Str "0 - 2.500.000"
  else v.

(** The table with the contents of the two income columns exchanged. *)
Definition swap_income_columns (df : DataFrame) (ayah ibu : list cell) : DataFrame :=
  setitem (setitem df "ayah_penghasilan" ibu) "ibu_penghasilan" ayah.


(** [m] returns [a] after appending the elements [es] to the page. *)
Definition returns {A} (m : St A) (a : A) (es : list element) : Prop :=
  ∀ page, m page = (Ok a, page ++ es).




(** ** Sample tables *)

(** A table with the two income columns and three rows. *)
Definition income_sample : DataFrame :=
  mkDataFrame 3
    {[ "ayah_penghasilan" := [Str "0 - 2.500.000"; Str "10.000.001 - 20.000.000"; Str "Tidak Diketahui"];
       "ibu_penghasilan" := [Str "2.500.001 - 5.000.000"; Str "50.000.001 - 100.000.000"; Str "0 - 2.500.000"] ]}.

(** A table with sentinels and missing cells. *)
Definition dirty_sample : DataFrame :=
  mkDataFrame 2 {[ "ayah_penghasilan" := [Str "\N"; NaN];
                   "ibu_penghasilan" := [Str "x"; Str "\N"];
                   "domisili" := [Str "\N"; NaN] ]}.

(** A table with twelve rows and more than ten kabupaten. *)
Definition occupations_sample : DataFrame :=
  mkDataFrame 12
    {[ "alamat_kabupaten" :=
         Str <$> ["a"; "b"; "c"; "d"; "e"; "f"; "g"; "h"; "i"; "j"; "k"; "k"];
       "asal_sekolah" :=
         Str <$> ["s"; "s"; "s"; "t"; "t"; "u"; "u"; "u"; "u"; "v"; "w"; "x"];
       "ayah_pekerjaan" :=
         Str <$> ["1"; "2"; "3"; "4"; "5"; "6"; "7"; "8"; "9"; "9"; "9"; "1"];
       "ibu_pekerjaan" :=
         Str <$> ["p"; "p"; "p"; "p"; "q"; "q"; "q"; "q"; "q"; "r"; "r"; "r"] ]}.

(** A table that lacks the column of the father's income. *)
Definition no_father_income : DataFrame :=
  mkDataFrame 1 {[ "ibu_penghasilan" := [Str "\N"]; "domisili" := [NaN] ]}.


(** The table read from a file that holds the header line only. *)
Definition header_only : DataFrame :=
  mkDataFrame 0 (list_to_map ((λ c, (c, [])) <$> expected_columns)).


(** ** Definitions for the properties of the sections *)

(** [m] raises [e] after appending the elements [es] to the page. *)
Definition raises {A} (m : St A) (e : exn) (es : list element) : Prop :=
  ∀ page, m page = (Raise e, page ++ es).

(** [top], seen [n] times, is a most frequent value of [col]. *)
Definition mode_of (col : list cell) (top : cell) (n : nat) : Prop :=
  top ∈ col ∧ top ≠ NaN ∧ n = occurrences top col ∧
  ∀ v, v ≠ NaN → occurrences v col ≤ n.

(** The total of a series of counts. *)
Definition total_count (s : counts) : nat := sum_list s.*2.

(** The position of a combined category among the five, lowest first. *)
Definition category_rank (label : string) : nat :=
  default 0 (fst <$> list_find (λ x, x = label) income_categories).

(** The columns the report sections read. *)
Definition report_columns : list string :=
  ["domisili"; "kategori"; "alamat_propinsi"; "alamat_kabupaten"; "tujuan1";
   "kampus1"; "kampus2"; "kampus3"; "ayah_pendidikan"; "ibu_pendidikan";
   "ayah_pekerjaan"; "ibu_pekerjaan"; "ayah_penghasilan"; "ibu_penghasilan";
   "propinsi_asal_sekolah"; "asal_sekolah"].

(** A table with one row and the expected columns, with the given name in
    the column no section reads. *)
Definition one_row (name : string) : DataFrame :=
  mkDataFrame 1
    (<["nama_calon_murid" := [Str name]]>
       (list_to_map ((λ c, (c, [Str "JAWA BARAT"])) <$> expected_columns))).

(** * Properties *)

(** ** Evaluation on sample inputs *)

Example get_max_income_unknown : get_max_income (Str "Tidak Diketahui") = 0%Z.
Proof. reflexivity. Qed.

Example get_income_category_10_5 :
  get_income_category (Str "7.500.001 - 10.000.000") (Str "2.500.001 - 5.000.000")
  = "10-20 Juta".
Proof. reflexivity. Qed.

Example value_counts_ex :
  value_counts [Str "a"; NaN; Str "b"; Str "b"; Str "c"; Str "b"; Str "c"]
  = [(Str "b", 3); (Str "c", 2); (Str "a", 1)].
Proof. vm_compute. reflexivity. Qed.

Example income_ordered_ex :
  income_ordered (value_counts [Str "2.500.001 - 5.000.000"; Str "x"; Str "0 - 2.500.000";
                                Str "2.500.001 - 5.000.000"])
  = [(Str "0 - 2.500.000", Some 1); (Str "2.500.001 - 5.000.000", Some 2)].
Proof. vm_compute. reflexivity. Qed.

Example clean_data_ex :
  clean_data (mkDataFrame 2 {[ "ayah_penghasilan" := [Str "\N"; NaN];
                               "ibu_penghasilan" := [Str "x"; Str "\N"];
                               "domisili" := [Str "\N"; NaN] ]})
  = Ok (mkDataFrame 2 {[ "ayah_penghasilan" := [Str "0 - 2.500.000"; Str "Tidak Diketahui"];
                               "ibu_penghasilan" := [Str "x"; Str "0 - 2.500.000"];
                               "domisili" := [Str "\N"; Str "Tidak Diketahui"] ]}).
Proof. vm_compute. reflexivity. Qed.


(** ** The derived household-income category *)

Lemma py_eq_Str (s lit : string) : py_eq (Str s) lit = true ↔ s = lit.
Proof. simpl. apply bool_decide_eq_true. Qed.

Lemma py_eq_not_Str (v : cell) (lit : string) :
  (∀ s, v ≠ Str s) → py_eq v lit = false.
Proof. destruct v; naive_solver. Qed.

Lemma py_eq_unrecognised (v : cell) (lit : string) :
  unrecognised v → lit ∈ create_salary_order → py_eq v lit = false.
Proof.
  intros Hv Hlit. destruct v as [|s|z]; try reflexivity.
  simpl. apply bool_decide_eq_false. intros ->. by apply (Hv lit).
Qed.

Lemma get_max_income_unrecognised (v : cell) :
  unrecognised v → get_max_income v = 0%Z.
Proof.
  intros Hv. unfold get_max_income.
  rewrite !(py_eq_unrecognised v) by (done || (unfold create_salary_order; set_solver)).
  reflexivity.
Qed.

Lemma unrecognised_Str (s : string) :
  s ∉ create_salary_order → unrecognised (Str s).
Proof. intros Hs t Ht [= ->]. contradiction. Qed.

Lemma income_bucket_spec (total : Z) :
  (income_bucket total = "≤ 5 Juta" ↔ (total ≤ 5000000)%Z) ∧
  (income_bucket total = "5-10 Juta" ↔ (5000000 < total ≤ 10000000)%Z) ∧
  (income_bucket total = "10-20 Juta" ↔ (10000000 < total ≤ 20000000)%Z) ∧
  (income_bucket total = "20-50 Juta" ↔ (20000000 < total ≤ 50000000)%Z) ∧
  (income_bucket total = "> 50 Juta" ↔ (50000000 < total)%Z).
Proof.
  unfold income_bucket.
  repeat (case Z.leb_spec; intros ?);
    repeat split; intros; try lia; try discriminate; reflexivity.
Qed.

(** C1: [get_max_income] sends the seven bracket labels, in order, to
    2500000, 5000000, 7500000, 10000000, 20000000, 50000000 and 100000000,
    and for every pair of income values the combined category is the
    bucket of the sum of the father's and the mother's mapped values. *)
Theorem C1_bracket_bounds_and_sum :
  get_max_income (Str "0 - 2.500.000") = 2500000%Z ∧
  get_max_income (Str "2.500.001 - 5.000.000") = 5000000%Z ∧
  get_max_income (Str "5.000.001 - 7.500.000") = 7500000%Z ∧
  get_max_income (Str "7.500.001 - 10.000.000") = 10000000%Z ∧
  get_max_income (Str "10.000.001 - 20.000.000") = 20000000%Z ∧
  get_max_income (Str "20.000.001 - 50.000.000") = 50000000%Z ∧
  get_max_income (Str "50.000.001 - 100.000.000") = 100000000%Z ∧
  (get_max_income ∘ Str) <$> create_salary_order = bracket_bounds ∧
  ∀ father_income mother_income : cell,
    get_income_category father_income mother_income
    = income_bucket (get_max_income father_income + get_max_income mother_income).
Proof. repeat split. Qed.

(** C2: the category [get_income_category] gives a pair of incomes is one
    of the five labels and is decided by the sum of the two mapped values
    against the thresholds 5, 10, 20 and 50 million, a sum equal to a
    threshold falling in the lower bucket; the same holds of the chain of
    comparisons, [income_bucket], at every sum. *)
Theorem C2_income_bucket_thresholds (total : Z) (father_income mother_income : cell) :
  income_bucket total ∈ income_categories ∧
  NoDup income_categories ∧
  (income_bucket total = "≤ 5 Juta" ↔ (total ≤ 5000000)%Z) ∧
  (income_bucket total = "5-10 Juta" ↔ (5000000 < total ≤ 10000000)%Z) ∧
  (income_bucket total = "10-20 Juta" ↔ (10000000 < total ≤ 20000000)%Z) ∧
  (income_bucket total = "20-50 Juta" ↔ (20000000 < total ≤ 50000000)%Z) ∧
  (income_bucket total = "> 50 Juta" ↔ (50000000 < total)%Z) ∧
  income_bucket 5000000 = "≤ 5 Juta" ∧
  income_bucket 10000000 = "5-10 Juta" ∧
  income_bucket 20000000 = "10-20 Juta" ∧
  income_bucket 50000000 = "20-50 Juta" ∧
  get_income_category father_income mother_income ∈ income_categories ∧
  (get_income_category father_income mother_income = "≤ 5 Juta"
   ↔ (get_max_income father_income + get_max_income mother_income ≤ 5000000)%Z) ∧
  (get_income_category father_income mother_income = "5-10 Juta"
   ↔ (5000000 < get_max_income father_income + get_max_income mother_income
      ≤ 10000000)%Z) ∧
  (get_income_category father_income mother_income = "10-20 Juta"
   ↔ (10000000 < get_max_income father_income + get_max_income mother_income
      ≤ 20000000)%Z) ∧
  (get_income_category father_income mother_income = "20-50 Juta"
   ↔ (20000000 < get_max_income father_income + get_max_income mother_income
      ≤ 50000000)%Z) ∧
  (get_income_category father_income mother_income = "> 50 Juta"
   ↔ (50000000 < get_max_income father_income + get_max_income mother_income)%Z) ∧
  get_income_category (Str "0 - 2.500.000") (Str "0 - 2.500.000") = "≤ 5 Juta" ∧
  get_income_category (Str "2.500.001 - 5.000.000") (Str "0 - 2.500.000")
  = "5-10 Juta" ∧
  get_income_category (Str "2.500.001 - 5.000.000") (Str "2.500.001 - 5.000.000")
  = "5-10 Juta" ∧
  get_income_category (Str "7.500.001 - 10.000.000") (Str "0 - 2.500.000")
  = "10-20 Juta" ∧
  get_income_category (Str "7.500.001 - 10.000.000") (Str "7.500.001 - 10.000.000")
  = "10-20 Juta" ∧
  get_income_category (Str "10.000.001 - 20.000.000") (Str "0 - 2.500.000")
  = "20-50 Juta" ∧
  get_income_category (Str "20.000.001 - 50.000.000") NaN = "20-50 Juta" ∧
  get_income_category (Str "20.000.001 - 50.000.000") (Str "0 - 2.500.000")
  = "> 50 Juta".
Proof.
  assert (∀ t, income_bucket t ∈ income_categories) as Hin.
  { intros t. unfold income_bucket, income_categories.
    repeat (case Z.leb_spec; intros ?); set_solver. }
  split; [apply Hin|]. split.
  { unfold income_categories. by apply (bool_decide_unpack _). }
  destruct (income_bucket_spec total) as (?&?&?&?&?).
  repeat (split; [assumption|]). do 4 (split; [reflexivity|]).
  split; [apply Hin|].
  destruct (income_bucket_spec
              (get_max_income father_income + get_max_income mother_income))
    as (?&?&?&?&?).
  change (get_income_category father_income mother_income)
    with (income_bucket (get_max_income father_income + get_max_income mother_income)).
  repeat (split; [assumption|]). repeat split.
Qed.

(** C8: an income value that is none of the seven bracket labels maps to
    0, and a row whose two income values are both unrecognised gets the
    category "≤ 5 Juta". *)
Theorem C8_unrecognised_income (father_income mother_income : string) :
  father_income ∉ create_salary_order →
  mother_income ∉ create_salary_order →
  get_max_income (Str father_income) = 0%Z ∧
  get_max_income (Str mother_income) = 0%Z ∧
  get_income_category (Str father_income) (Str mother_income) = "≤ 5 Juta".
Proof.
  intros Hf Hm.
  pose proof (get_max_income_unrecognised _ (unrecognised_Str _ Hf)) as Ef.
  pose proof (get_max_income_unrecognised _ (unrecognised_Str _ Hm)) as Em.
  unfold get_income_category. rewrite Ef, Em. done.
Qed.

Lemma C8_unrecognised_income_witness :
  ("Tidak Diketahui" ∉ create_salary_order) ∧
  ("" ∉ create_salary_order) ∧
  get_max_income (Str "Tidak Diketahui") = 0%Z ∧
  get_max_income (Str "") = 0%Z ∧
  get_income_category (Str "Tidak Diketahui") (Str "") = "≤ 5 Juta".
Proof.
  assert (H1 : "Tidak Diketahui" ∉ create_salary_order) by (by apply (bool_decide_unpack _)).
  assert (H2 : "" ∉ create_salary_order) by (by apply (bool_decide_unpack _)).
  split; [exact H1|]. split; [exact H2|].
  exact (C8_unrecognised_income "Tidak Diketahui" "" H1 H2).
Defined.

(** ** Rows and the derived column *)

Lemma mapM_result_ext {A B} (f g : A → result B) (l : list A) :
  (∀ x, x ∈ l → f x = g x) → mapM f l = mapM g l.
Proof.
  induction l as [|x l IH]; intros Hfg; [reflexivity|].
  simpl. rewrite (Hfg x) by left.
  destruct (g x); [|reflexivity]. simpl.
  rewrite IH; [reflexivity|]. intros y Hy. apply Hfg. by right.
Qed.


Lemma get_income_category_comm (a b : cell) :
  get_income_category a b = get_income_category b a.
Proof. unfold get_income_category. cbv zeta. by rewrite Z.add_comm. Qed.

Lemma combined_income_row_swap (df : DataFrame) (ayah ibu : list cell) (i : nat) :
  getitem df "ayah_penghasilan" = Ok ayah →
  getitem df "ibu_penghasilan" = Ok ibu →
  combined_income_row (row_item (swap_income_columns df ayah ibu) i)
  = combined_income_row (row_item df i).
Proof.
  unfold getitem. intros Ha Hb.
  destruct (columns df !! "ayah_penghasilan") as [a|] eqn:Ea; [|discriminate].
  destruct (columns df !! "ibu_penghasilan") as [b|] eqn:Eb; [|discriminate].
  simplify_eq.
  unfold combined_income_row, row_item, getitem, swap_income_columns, setitem; simpl.
  rewrite (lookup_insert_ne _ "ibu_penghasilan" "ayah_penghasilan") by done.
  rewrite !lookup_insert_eq. rewrite Ea, Eb. simpl.
  destruct (ayah !! i) as [x|], (ibu !! i) as [y|]; simpl; try reflexivity.
  by rewrite get_income_category_comm.
Qed.

(** C9: [get_income_category] is commutative, and exchanging the father's
    and the mother's income columns of a table leaves the derived column
    unchanged. *)
Theorem C9_income_category_commutative (df : DataFrame) (ayah ibu : list cell) :
  getitem df "ayah_penghasilan" = Ok ayah →
  getitem df "ibu_penghasilan" = Ok ibu →
  (∀ a b : cell, get_income_category a b = get_income_category b a) ∧
  apply_rows (swap_income_columns df ayah ibu) combined_income_row
  = apply_rows df combined_income_row.
Proof.
  intros Ha Hb. split; [apply get_income_category_comm|].
  unfold apply_rows. replace (nrows (swap_income_columns df ayah ibu)) with (nrows df) by done.
  apply mapM_result_ext. intros i _. by apply combined_income_row_swap.
Qed.

Lemma C9_income_category_commutative_witness :
  (∀ a b : cell, get_income_category a b = get_income_category b a) ∧
  apply_rows (swap_income_columns income_sample
                [Str "0 - 2.500.000"; Str "10.000.001 - 20.000.000"; Str "Tidak Diketahui"]
                [Str "2.500.001 - 5.000.000"; Str "50.000.001 - 100.000.000"; Str "0 - 2.500.000"])
             combined_income_row
  = apply_rows income_sample combined_income_row.
Proof.
  apply (C9_income_category_commutative income_sample); reflexivity.
Defined.

Example apply_rows_income_sample :
  apply_rows income_sample combined_income_row
  = Ok [Str "5-10 Juta"; Str "> 50 Juta"; Str "≤ 5 Juta"].
Proof. vm_compute. reflexivity. Qed.

(** ** clean_data *)

Lemma fill_replace_clean_cell (col : string) (v : cell) :
  col ∈ salary_columns →
  (let r := if decide (v = Str "\N") then Str "0 - 2.500.000" else v in
   if decide (r = NaN) then Str "Tidak Diketahui" else r) = clean_cell col v.
Proof.
  intros Hcol. unfold clean_cell. cbv zeta.
  destruct (decide (v = Str "\N")) as [->|Hn].
  - rewrite !(decide_False (P := Str _ = NaN)) by done.
    by rewrite decide_True.
  - destruct (decide (v = NaN)); [reflexivity|].
    rewrite decide_False; [done|]. by intros [_ ?].
Qed.

Lemma fill_clean_cell (col : string) (v : cell) :
  col ∉ salary_columns →
  (if decide (v = NaN) then Str "Tidak Diketahui" else v) = clean_cell col v.
Proof. intros Hcol. unfold clean_cell. repeat case_decide; naive_solver. Qed.

Lemma clean_data_columns (df : DataFrame) (ayah ibu : list cell) :
  columns df !! "ayah_penghasilan" = Some ayah →
  columns df !! "ibu_penghasilan" = Some ibu →
  ∃ df', clean_data df = Ok df' ∧ nrows df' = nrows df ∧
         ∀ col, columns df' !! col = fmap (clean_cell col) <$> columns df !! col.
Proof.
  intros Ha Hb. eexists. split; [|split].
  - unfold clean_data, salary_columns, for_each, clean_salary_column, getitem.
    rewrite Ha. simpl.
    rewrite (lookup_insert_ne _ "ayah_penghasilan" "ibu_penghasilan") by done.
    rewrite Hb. simpl. reflexivity.
  - reflexivity.
  - intros col. simpl. rewrite lookup_fmap.
    destruct (decide (col = "ibu_penghasilan")) as [->|Hi].
    { rewrite lookup_insert_eq, Hb. simpl. f_equal. unfold replace.
      rewrite <- list_fmap_compose. apply list_fmap_ext. intros _ v _. simpl.
      apply (fill_replace_clean_cell "ibu_penghasilan"). set_solver. }
    rewrite lookup_insert_ne by done.
    destruct (decide (col = "ayah_penghasilan")) as [->|Ha'].
    { rewrite lookup_insert_eq, Ha. simpl. f_equal. unfold replace.
      rewrite <- list_fmap_compose. apply list_fmap_ext. intros _ v _. simpl.
      apply (fill_replace_clean_cell "ayah_penghasilan"). set_solver. }
    rewrite lookup_insert_ne by done.
    destruct (columns df !! col) as [c|]; [|reflexivity]. simpl. f_equal.
    apply list_fmap_ext. intros _ v _. apply fill_clean_cell.
    unfold salary_columns. set_solver.
Qed.



(** The claim as first stated, for every input table, fails on a table
    without the column [ayah_penghasilan]: [clean_data] raises [KeyError]
    at line 27 and returns no table, so the sentinel of [ibu_penghasilan]
    is not replaced and the missing cell of [domisili] is not filled. *)
Lemma C3_missing_column_counterexample :
  columns no_father_income !! "ibu_penghasilan" = Some [Str "\N"] ∧
  columns no_father_income !! "domisili" = Some [NaN] ∧
  clean_data no_father_income = Raise (KeyError "ayah_penghasilan") ∧
  ¬ ∃ df', clean_data no_father_income = Ok df'.
Proof.
  split; [reflexivity|]. split; [reflexivity|].
  assert (clean_data no_father_income = Raise (KeyError "ayah_penghasilan")) as E
    by (vm_compute; reflexivity).
  split; [exact E|]. intros [df' H]. rewrite E in H. discriminate.
Qed.

(** Without one of the income columns [clean_data] raises [KeyError]. *)
Lemma clean_data_missing_column (df : DataFrame) :
  columns df !! "ayah_penghasilan" = None →
  clean_data df = Raise (KeyError "ayah_penghasilan").
Proof.
  intros Ha. unfold clean_data, salary_columns, for_each, clean_salary_column, getitem.
  by rewrite Ha.
Qed.

(** ** Value counts *)

#[global] Instance count_ge_trans : Transitive count_ge.
Proof. intros a b c. unfold count_ge. lia. Qed.

#[global] Instance count_ge_total : Total count_ge.
Proof. intros a b. unfold count_ge. lia. Qed.

Lemma occurrences_snoc (v x : cell) (l : list cell) :
  occurrences v (l ++ [x]) = occurrences v l + (if decide (x = v) then 1 else 0).
Proof.
  unfold occurrences. rewrite filter_app, length_app. f_equal.
  rewrite filter_cons. by case_decide.
Qed.

Lemma occurrences_pos (v : cell) (l : list cell) : v ∈ l ↔ 0 < occurrences v l.
Proof.
  unfold occurrences. split.
  - intros Hv. assert (v ∈ filter (λ y, y = v) l) as Hin
      by (by apply list_elem_of_filter).
    destruct (filter _ l); [by apply elem_of_nil in Hin|simpl; lia].
  - intros Hpos. destruct (filter (λ y, y = v) l) as [|y k] eqn:E; [simpl in Hpos; lia|].
    assert (y ∈ filter (λ y, y = v) l) as Hin by (rewrite E; left).
    apply list_elem_of_filter in Hin as [-> ?]. done.
Qed.

Lemma occurrences_dropna (v : cell) (l : list cell) :
  v ≠ NaN → occurrences v (dropna l) = occurrences v l.
Proof.
  intros Hv. unfold occurrences, dropna.
  induction l as [|x l IH]; [reflexivity|].
  rewrite (filter_cons (λ v, v ≠ NaN)). case_decide.
  - rewrite !(filter_cons (λ y, y = v)). case_decide; simpl; by rewrite IH.
  - rewrite (filter_cons (λ y, y = v)). rewrite decide_False; [done|].
    intros ->. done.
Qed.

Lemma loc_bump (v x : cell) (t : counts) :
  loc (bump x t) v
  = if decide (v = x) then Some (S (default 0 (loc t x))) else loc t v.
Proof.
  induction t as [|[y n] t IH]; simpl.
  - by case_decide.
  - destruct (decide (x = y)) as [<-|Hxy]; simpl.
    + by destruct (decide (v = x)).
    + rewrite IH. destruct (decide (v = x)) as [->|Hvx].
      * by rewrite decide_False.
      * reflexivity.
Qed.

Lemma keys_bump (x : cell) (t : counts) :
  (bump x t).*1 = if decide (x ∈ t.*1) then t.*1 else t.*1 ++ [x].
Proof.
  induction t as [|[y n] t IH]; [reflexivity|].
  cbn [bump]. destruct (decide (x = y)) as [<-|Hxy].
  - rewrite !fmap_cons. cbn [fst]. rewrite decide_True; [done|left].
  - rewrite !fmap_cons, IH. cbn [fst]. destruct (decide (x ∈ t.*1)) as [Hin|Hin].
    + rewrite decide_True; [done|]. by right.
    + rewrite decide_False; [done|]. rewrite elem_of_cons. naive_solver.
Qed.

Lemma tally_snoc (l : list cell) (x : cell) : tally (l ++ [x]) = bump x (tally l).
Proof. unfold tally. by rewrite foldl_snoc. Qed.

Lemma keys_tally (l : list cell) :
  NoDup (tally l).*1 ∧ ∀ v, v ∈ (tally l).*1 ↔ v ∈ l.
Proof.
  induction l as [|x l [IHnd IHin]] using rev_ind.
  - split; [constructor|]. intros v. simpl. by rewrite !elem_of_nil.
  - rewrite tally_snoc, keys_bump. case_decide as Hx; split; try done.
    + intros v. rewrite elem_of_app, list_elem_of_singleton, IHin.
      apply IHin in Hx. naive_solver.
    + apply NoDup_app. split; [done|]. split; [|apply NoDup_singleton].
      intros v Hv ->%list_elem_of_singleton. done.
    + intros v. rewrite !elem_of_app, IHin. done.
Qed.

Lemma loc_tally (l : list cell) (v : cell) :
  loc (tally l) v = if decide (v ∈ l) then Some (occurrences v l) else None.
Proof.
  induction l as [|x l IH] using rev_ind; [reflexivity|].
  - rewrite tally_snoc, loc_bump, occurrences_snoc.
    destruct (decide (v = x)) as [->|Hvx].
    + rewrite decide_True by (apply elem_of_app; right; left).
      rewrite decide_True by done. rewrite IH. case_decide as Hx; simpl.
      * f_equal. lia.
      * f_equal. assert (occurrences x l = 0); [|lia].
        destruct (occurrences x l) eqn:E; [done|].
        exfalso. apply Hx, occurrences_pos. lia.
    + rewrite IH. rewrite (decide_False (P := x = v)) by done.
      rewrite Nat.add_0_r.
      destruct (decide (v ∈ l)) as [Hin|Hin].
      * rewrite decide_True; [done|]. apply elem_of_app. by left.
      * rewrite decide_False; [done|].
        rewrite elem_of_app, list_elem_of_singleton. naive_solver.
Qed.

Lemma loc_elem_of (s : counts) (v : cell) (n : nat) :
  NoDup s.*1 → (loc s v = Some n ↔ (v, n) ∈ s).
Proof.
  induction s as [|[y k] s IH]; simpl; intros Hnd.
  - split; [done|]. by intros ?%elem_of_nil.
  - apply NoDup_cons in Hnd as [Hy Hnd]. rewrite elem_of_cons.
    destruct (decide (v = y)) as [->|Hvy].
    + split; [intros [= ->]; by left|].
      intros [[= ->]|Hin]; [done|].
      exfalso. apply Hy. apply list_elem_of_fmap. by exists (y, n).
    + rewrite IH by done. naive_solver.
Qed.

Lemma loc_None (s : counts) (v : cell) : loc s v = None ↔ v ∉ s.*1.
Proof.
  induction s as [|[y k] s IH]; simpl.
  - split; [intros _; apply not_elem_of_nil|done].
  - rewrite not_elem_of_cons. case_decide; naive_solver.
Qed.

Lemma insert_count_Permutation (e : cell * nat) (s : counts) :
  insert_count e s ≡ₚ e :: s.
Proof.
  induction s as [|e' s IH]; [done|]. simpl. case_decide; [|done].
  rewrite IH. apply Permutation_swap.
Qed.

Lemma sort_counts_Permutation (t : counts) : sort_counts t ≡ₚ t.
Proof.
  induction t as [|e t IH]; [done|]. simpl.
  by rewrite insert_count_Permutation, IH.
Qed.

Lemma insert_count_sorted (e : cell * nat) (s : counts) :
  StronglySorted count_ge s → StronglySorted count_ge (insert_count e s).
Proof.
  induction 1 as [|e' s Hs IH Hall]; simpl.
  - repeat constructor.
  - case_decide as Hlt.
    + constructor; [done|]. rewrite insert_count_Permutation.
      constructor; [unfold count_ge; lia|done].
    + constructor; [by constructor|]. constructor; [unfold count_ge; lia|].
      eapply Forall_impl; [exact Hall|]. unfold count_ge. intros x Hx. lia.
Qed.

Lemma sort_counts_sorted (t : counts) : StronglySorted count_ge (sort_counts t).
Proof.
  induction t as [|e t IH]; simpl; [constructor|by apply insert_count_sorted].
Qed.

Lemma value_counts_Permutation (col : list cell) :
  value_counts col ≡ₚ tally (dropna col).
Proof. apply sort_counts_Permutation. Qed.

Lemma value_counts_sorted (col : list cell) :
  StronglySorted count_ge (value_counts col).
Proof. apply sort_counts_sorted. Qed.

Lemma value_counts_NoDup (col : list cell) : NoDup (value_counts col).*1.
Proof.
  rewrite (value_counts_Permutation col). apply keys_tally.
Qed.

Lemma value_counts_keys (col : list cell) (v : cell) :
  v ∈ (value_counts col).*1 ↔ v ∈ col ∧ v ≠ NaN.
Proof.
  rewrite (value_counts_Permutation col).
  rewrite (proj2 (keys_tally _)). unfold dropna.
  rewrite list_elem_of_filter. naive_solver.
Qed.

Lemma value_counts_elem_of (col : list cell) (v : cell) (n : nat) :
  (v, n) ∈ value_counts col ↔ v ∈ col ∧ v ≠ NaN ∧ n = occurrences v col.
Proof.
  rewrite (value_counts_Permutation col).
  rewrite <- loc_elem_of by apply keys_tally.
  rewrite loc_tally. unfold dropna at 1. case_decide as Hin.
  - apply list_elem_of_filter in Hin as [Hv Hin].
    rewrite occurrences_dropna by done. naive_solver.
  - rewrite list_elem_of_filter in Hin. naive_solver.
Qed.

Lemma value_counts_length (col : list cell) :
  length (value_counts col) = nunique col.
Proof. unfold nunique. by rewrite (value_counts_Permutation col). Qed.

(** ** Reordering the income counts *)

Lemma in_index_elem_of (x : cell) (s : counts) : in_index x s ↔ x ∈ s.*1.
Proof. unfold in_index. apply bool_decide_spec. Qed.

Lemma elem_of_reindex_filter (s : counts) (labels : list cell) (x : cell) (o : option nat) :
  (x, o) ∈ reindex s (filter (λ x, in_index x s) labels)
  ↔ x ∈ labels ∧ x ∈ s.*1 ∧ o = loc s x.
Proof.
  unfold reindex. rewrite list_elem_of_fmap. split.
  - intros (y & [= -> ->] & Hy). apply list_elem_of_filter in Hy as [Hin Hy].
    by apply in_index_elem_of in Hin.
  - intros (Hl & Hs & ->). exists x. split; [done|].
    apply list_elem_of_filter. split; [by apply in_index_elem_of|done].
Qed.

Lemma elem_of_as_reindexed (s : counts) (x : cell) (o : option nat) :
  (x, o) ∈ as_reindexed s ↔ ∃ n, o = Some n ∧ (x, n) ∈ s.
Proof.
  unfold as_reindexed. rewrite list_elem_of_fmap. split.
  - intros ([y n] & [= -> ->] & Hy). by exists n.
  - intros (n & -> & Hn). by exists (x, n).
Qed.

Lemma NoDup_as_reindexed (s : counts) : NoDup s → NoDup (as_reindexed s).
Proof.
  apply NoDup_fmap_2_strong. intros [x n] [y k] _ _ [= -> ->]. done.
Qed.

Lemma reindex_filter_Permutation (s : counts) (labels : list cell) :
  NoDup s.*1 → NoDup labels →
  reindex s (filter (λ x, in_index x s) labels)
  ≡ₚ as_reindexed (filter (λ e, e.1 ∈ labels) s).
Proof.
  intros Hs Hl. apply NoDup_Permutation.
  - apply NoDup_fmap_2_strong; [|by apply NoDup_filter].
    by intros x y _ _ [= ->].
  - apply NoDup_as_reindexed, NoDup_filter. by apply NoDup_fmap_1 in Hs.
  - intros [x o]. rewrite elem_of_reindex_filter, elem_of_as_reindexed. split.
    + intros (Hx & Hin & ->). destruct (loc s x) as [n|] eqn:E.
      * exists n. split; [done|]. apply list_elem_of_filter. split; [done|].
        by apply loc_elem_of.
      * by apply loc_None in E.
    + intros (n & -> & Hin). apply list_elem_of_filter in Hin as [Hx Hin].
      split; [done|]. split.
      * apply list_elem_of_fmap. by exists (x, n).
      * symmetry. by apply loc_elem_of.
Qed.

Lemma filter_all {A} (P : A → Prop) `{∀ x, Decision (P x)} (l : list A) :
  (∀ x, x ∈ l → P x) → filter P l = l.
Proof.
  induction l as [|x l IH]; intros Hall; [reflexivity|].
  rewrite filter_cons_True by (apply Hall; left).
  f_equal. apply IH. intros y Hy. apply Hall. by right.
Qed.

Lemma salary_order_NoDup : NoDup (Str <$> create_salary_order).
Proof. by apply (bool_decide_unpack _). Qed.

Lemma income_ordered_index (income : counts) :
  (income_ordered income).*1
  = filter (λ x, in_index x income) (Str <$> create_salary_order).
Proof.
  unfold income_ordered, reindex. cbv zeta.
  rewrite <- list_fmap_compose. apply list_fmap_id.
Qed.

(** C4, as the code has it: the reordered series holds exactly the entries
    of the value counts whose label is one of the seven brackets, each
    with its count, in the order of [create_salary_order]; labels outside
    that list are dropped, so the reordered series is a permutation of the
    value counts when every value of the column is a bracket label. *)
Theorem C4_income_reorder (col : list cell) :
  income_ordered (value_counts col)
  ≡ₚ as_reindexed (filter (λ e, e.1 ∈ Str <$> create_salary_order) (value_counts col)) ∧
  (income_ordered (value_counts col)).*1 `sublist_of` (Str <$> create_salary_order) ∧
  (∀ x o, (x, o) ∈ income_ordered (value_counts col)
          ↔ x ∈ Str <$> create_salary_order ∧ x ∈ col ∧ o = Some (occurrences x col)) ∧
  ((∀ v, v ∈ col → v = NaN ∨ v ∈ Str <$> create_salary_order) →
   income_ordered (value_counts col) ≡ₚ as_reindexed (value_counts col)).
Proof.
  assert (Hperm : income_ordered (value_counts col)
    ≡ₚ as_reindexed (filter (λ e, e.1 ∈ Str <$> create_salary_order) (value_counts col))).
  { apply reindex_filter_Permutation;
      [apply value_counts_NoDup|apply salary_order_NoDup]. }
  split; [exact Hperm|]. split; [|split].
  - rewrite income_ordered_index. apply sublist_filter.
  - intros x o. rewrite Hperm, elem_of_as_reindexed. split.
    + intros (n & -> & Hin). apply list_elem_of_filter in Hin as [Hx Hin].
      apply value_counts_elem_of in Hin as (? & ? & ->). done.
    + intros (Hx & Hin & ->). eexists. split; [done|].
      apply list_elem_of_filter. split; [done|].
      apply value_counts_elem_of. split; [done|]. split; [|done].
      intros ->. apply list_elem_of_fmap in Hx as (? & ? & _). done.
  - intros Hall. rewrite Hperm. f_equiv. rewrite filter_all; [done|].
    intros [v k] (Hv & Hnan & _)%value_counts_elem_of. simpl.
    by destruct (Hall v Hv).
Qed.

Lemma C4_income_reorder_witness :
  income_ordered (value_counts [Str "2.500.001 - 5.000.000"; NaN; Str "0 - 2.500.000";
                                Str "2.500.001 - 5.000.000"])
  ≡ₚ as_reindexed (value_counts [Str "2.500.001 - 5.000.000"; NaN; Str "0 - 2.500.000";
                                 Str "2.500.001 - 5.000.000"]).
Proof.
  apply (C4_income_reorder [Str "2.500.001 - 5.000.000"; NaN; Str "0 - 2.500.000";
                            Str "2.500.001 - 5.000.000"]).
  apply Forall_forall. apply (bool_decide_unpack _). vm_compute. reflexivity.
Defined.

(** The claim as first stated, a permutation of the value counts whatever
    the column holds, fails: the placeholder written by [clean_data] is
    counted by [value_counts] and dropped by the reordering. *)
Lemma C4_unknown_label_dropped :
  ¬ (income_ordered (value_counts [Str "0 - 2.500.000"; Str "Tidak Diketahui"])
     ≡ₚ as_reindexed (value_counts [Str "0 - 2.500.000"; Str "Tidak Diketahui"])).
Proof. intros H%Permutation_length. vm_compute in H. discriminate. Qed.

(** ** Top-N restriction *)

Lemma value_counts_complete (col : list cell) :
  complete_counts col (value_counts col).
Proof.
  split; [apply value_counts_length|]. split; [apply value_counts_sorted|].
  apply value_counts_elem_of.
Qed.

Lemma head_most_frequent (n : nat) (col : list cell) :
  most_frequent n col (head n (value_counts col)).
Proof.
  unfold head. pose proof (value_counts_sorted col) as Hsorted.
  rewrite <- (take_drop n (value_counts col)) in Hsorted.
  split; [|split; [|split; [|split]]].
  - by rewrite length_take, value_counts_length.
  - rewrite fmap_take. eapply sublist_NoDup; [apply value_counts_NoDup|].
    apply sublist_take.
  - by apply StronglySorted_app_1_l in Hsorted.
  - intros v k Hin. apply (subseteq_take n) in Hin.
    by apply value_counts_elem_of in Hin.
  - intros v Hv Hnan Hout w k Hw.
    assert ((v, occurrences v col) ∈ value_counts col) as Hin
      by (by apply value_counts_elem_of).
    rewrite <- (take_drop n (value_counts col)) in Hin.
    apply elem_of_app in Hin as [Hin|Hin].
    + exfalso. apply Hout. apply list_elem_of_fmap. by exists (v, occurrences v col).
    + apply (StronglySorted_app_1_elem_of _ _ _ _ _ Hsorted Hw Hin).
Qed.

Lemma column_counts_Some (df : DataFrame) (col : string) (c : list cell) :
  columns df !! col = Some c → column_counts df col = Ok (value_counts c).
Proof. intros Hc. unfold column_counts, getitem. by rewrite Hc. Qed.

(** C6: the counts of [alamat_kabupaten] and [asal_sekolah] are cut to the
    10 most frequent values and those of [ayah_pekerjaan] and
    [ibu_pekerjaan] to the 8 most frequent, in descending order of count;
    the counts of every other dimension list all values of their
    column. *)
Theorem C6_top_n (df : DataFrame) (kabupaten sekolah ayah ibu : list cell) :
  columns df !! "alamat_kabupaten" = Some kabupaten →
  columns df !! "asal_sekolah" = Some sekolah →
  columns df !! "ayah_pekerjaan" = Some ayah →
  columns df !! "ibu_pekerjaan" = Some ibu →
  (∃ s, regency_counts df = Ok s ∧ most_frequent 10 kabupaten s) ∧
  (∃ s, top_schools df = Ok s ∧ most_frequent 10 sekolah s) ∧
  (∃ s, ayah_job df = Ok s ∧ most_frequent 8 ayah s) ∧
  (∃ s, ibu_job df = Ok s ∧ most_frequent 8 ibu s) ∧
  (∀ (d : DataFrame) col c, columns d !! col = Some c →
     ∃ s, column_counts d col = Ok s ∧ complete_counts c s) ∧
  (∀ series col,
     (series, col) ∈ [(domicile_counts, "domisili"); (category_counts, "kategori");
                      (province_counts, "alamat_propinsi"); (tujuan1_counts, "tujuan1");
                      (ayah_edu, "ayah_pendidikan"); (ibu_edu, "ibu_pendidikan");
                      (ayah_income, "ayah_penghasilan"); (ibu_income, "ibu_penghasilan");
                      (school_province, "propinsi_asal_sekolah")] →
     series df = column_counts df col) ∧
  (∀ l, all_campus df = Ok l → ∃ s, campus_counts df = Ok s ∧ complete_counts l s).
Proof.
  intros Hk Hs Ha Hi.
  unfold regency_counts, top_schools, ayah_job, ibu_job.
  rewrite (column_counts_Some _ _ _ Hk), (column_counts_Some _ _ _ Hs),
    (column_counts_Some _ _ _ Ha), (column_counts_Some _ _ _ Hi). simpl.
  repeat (split; [eexists; split; [reflexivity|apply head_most_frequent]|]).
  split; [|split].
  - intros d col c Hc. exists (value_counts c).
    split; [by apply column_counts_Some|apply value_counts_complete].
  - intros series col Hin.
    repeat (apply elem_of_cons in Hin as [[= -> ->]|Hin]; [reflexivity|]).
    by apply elem_of_nil in Hin.
  - intros l Hl. exists (value_counts l). unfold campus_counts. rewrite Hl.
    split; [done|apply value_counts_complete].
Qed.

Lemma C6_top_n_witness :
  (∃ s, regency_counts occupations_sample = Ok s ∧
        most_frequent 10
          (Str <$> ["a"; "b"; "c"; "d"; "e"; "f"; "g"; "h"; "i"; "j"; "k"; "k"]) s) ∧
  (∃ s, ayah_job occupations_sample = Ok s ∧
        most_frequent 8
          (Str <$> ["1"; "2"; "3"; "4"; "5"; "6"; "7"; "8"; "9"; "9"; "9"; "1"]) s).
Proof.
  destruct (C6_top_n occupations_sample _ _ _ _ eq_refl eq_refl eq_refl eq_refl)
    as (Hk & _ & Ha & _).
  exact (conj Hk Ha).
Defined.

Example head_value_counts_ex :
  head 2 (value_counts [Str "a"; Str "b"; Str "c"; Str "b"; Str "c"; Str "c"])
  = [(Str "c", 3); (Str "b", 2)].
Proof. vm_compute. reflexivity. Qed.

(** ** Running page computations *)

Lemma returns_ret {A} (a : A) : returns (mret a) a [].
Proof. intros page. by rewrite app_nil_r. Qed.

Lemma returns_emit (e : element) : returns (emit e) tt [e].
Proof. done. Qed.

Lemma returns_lift {A} (r : result A) (a : A) : r = Ok a → returns (lift r) a [].
Proof. intros -> page. by rewrite app_nil_r. Qed.

Lemma returns_bind {A B} (m : St A) (f : A → St B) a b es1 es2 :
  returns m a es1 → returns (f a) b es2 → returns (m ≫= f) b (es1 ++ es2).
Proof.
  intros Hm Hf page. unfold mbind, St_bind, st_bind.
  by rewrite Hm, Hf, app_assoc.
Qed.


Lemma returns_checkbox (widget : string → option bool) (label : string) (value : bool) :
  returns (checkbox widget label value) (default value (widget label))
    [Checkbox label (default value (widget label))].
Proof. done. Qed.

Lemma returns_px_bar (title : string) (labels : list cell) (values : list (option nat)) :
  labels ≠ [] → returns (px_bar title labels values) tt [Bar title labels values].
Proof. destruct labels; [done|]. intros _. apply returns_emit. Qed.

Lemma returns_if (b : bool) (m : St unit) (es : list element) :
  returns m tt es → returns (if b then m else mret tt) tt (if b then es else []).
Proof. destruct b; [done|]. intros _. apply returns_ret. Qed.

(** One step through a sequence of page computations. *)
Ltac step :=
  lazymatch goal with
  | |- returns (mbind _ (emit _)) _ _ =>
      eapply returns_bind; [apply returns_emit|cbv beta]
  | |- returns (mbind _ (lift _)) _ _ =>
      eapply returns_bind; [apply returns_lift; eassumption || reflexivity|cbv beta]
  | |- returns (mbind _ (checkbox _ _ _)) _ _ =>
      eapply returns_bind; [apply returns_checkbox|cbv beta]
  | |- returns (mbind _ (px_bar _ _ _)) _ _ =>
      eapply returns_bind; [apply returns_px_bar; first [done|eassumption]|cbv beta]
  | |- returns (px_bar _ _ _) _ _ => apply returns_px_bar; first [done|eassumption]
  | |- returns (emit _) _ _ => apply returns_emit
  | |- returns (mret _) _ _ => apply returns_ret
  end.



(** ** The sections on a cleaned table *)

Ltac in_expected := apply (bool_decide_unpack _); vm_compute; reflexivity.

Lemma getitem_Some (df : DataFrame) (c : string) (col : list cell) :
  columns df !! c = Some col → getitem df c = Ok col.
Proof. intros H. unfold getitem. by rewrite H. Qed.


Lemma value_counts_cons (l : list cell) (v : cell) :
  v ∈ l → v ≠ NaN → ∃ e s, value_counts l = e :: s.
Proof.
  intros Hv Hnan.
  assert ((v, occurrences v l) ∈ value_counts l) as Hin
    by (by apply value_counts_elem_of).
  destruct (value_counts l) as [|e s]; [by apply elem_of_nil in Hin|eauto].
Qed.










(** ** income_analysis *)






(** ** From the loaded table to the cleaned one *)

Lemma clean_cell_not_NaN (c : string) (v : cell) : clean_cell c v ≠ NaN.
Proof. unfold clean_cell. repeat case_decide; naive_solver. Qed.





(** ** main on a reportable table *)


Lemma returns_eq {A} (m : St A) (a : A) (es es' : list element) :
  returns m a es → es = es' → returns m a es'.
Proof. by intros ? <-. Qed.











Example main_header_only_error :
  (main (λ _ _, Ok header_only) (Some "") (λ _, None) []).1 = Ok tt ∧
  last (main (λ _ _, Ok header_only) (Some "") (λ _, None) []).2
  = Some (Info "Pastikan format CSV sesuai dengan template yang diharapkan" []).
Proof. by vm_compute. Qed.

(** ** The derived column and the export *)




(** ** load_data *)

(** C5: [load_data] hands the file to the parser with a semicolon as
    delimiter, the double quote as quote character and the policy of
    skipping bad lines; it returns the table when the parser returns one;
    when the parser raises it shows an error message and returns [None],
    never raising itself, and [main] then renders nothing more. *)
Theorem C5_load_data read_csv (file : string) (widget : string → option bool)
    (page : list element) :
  delimiter load_options = ";" ∧
  quotechar load_options = String (Ascii.ascii_of_nat 34) "" ∧
  on_bad_lines load_options = BadLinesSkip ∧
  match read_csv load_options file with
  | Ok df => load_data read_csv file page = (Ok (Some df), page)
  | Raise e =>
      load_data read_csv file page
      = (Ok None, page ++ [Error ("Error loading CSV: " +:+ str_exn e)]) ∧
      main read_csv (Some file) widget page
      = (Ok tt,
         page ++ [Title "📊 Dashboard Analisis Data Pendaftaran Siswa"; Markdown "---";
                  SidebarHeader "⚙️ Pengaturan Analisis";
                  FileUploader "Pilih file CSV data pendaftaran";
                  Error ("Error loading CSV: " +:+ str_exn e)])
  end ∧
  ∃ r, (load_data read_csv file page).1 = Ok r.
Proof.
  split; [reflexivity|]. split; [reflexivity|]. split; [reflexivity|].
  unfold main, load_data, try_except, mbind, St_bind, st_bind, lift, emit, mret, St_ret,
    st_ret.
  destruct (read_csv load_options file) as [df|e]; simpl.
  - split; [reflexivity|]. by eexists.
  - split; [|by eexists]. split; [reflexivity|].
    by rewrite <- !app_assoc.
Qed.

Example load_data_parse_error :
  load_data (λ _ _, Raise (OtherError "Error tokenizing data")) "a;b" []
  = (Ok None, [Error "Error loading CSV: Error tokenizing data"]).
Proof. reflexivity. Qed.

(** * Further properties of the code *)

(** ** clean_data: errors and idempotence *)

Lemma clean_data_cases (df : DataFrame) :
  match columns df !! "ayah_penghasilan", columns df !! "ibu_penghasilan" with
  | None, _ => clean_data df = Raise (KeyError "ayah_penghasilan")
  | Some _, None => clean_data df = Raise (KeyError "ibu_penghasilan")
  | Some _, Some _ => ∃ df', clean_data df = Ok df'
  end.
Proof.
  destruct (columns df !! "ayah_penghasilan") as [ayah|] eqn:Ha.
  - destruct (columns df !! "ibu_penghasilan") as [ibu|] eqn:Hb.
    + destruct (clean_data_columns df ayah ibu Ha Hb) as (df' & Hrun & _). eauto.
    + unfold clean_data, salary_columns, for_each, clean_salary_column, getitem.
      rewrite Ha. simpl.
      rewrite (lookup_insert_ne _ "ayah_penghasilan" "ibu_penghasilan") by done.
      by rewrite Hb.
  - by apply clean_data_missing_column.
Qed.

(** X1: [clean_data] raises [KeyError] for the first income column that is
    missing, in the order of [salary_columns], and returns a table when
    both are there. *)
Theorem clean_data_outcome (df : DataFrame) :
  match columns df !! "ayah_penghasilan", columns df !! "ibu_penghasilan" with
  | None, _ => clean_data df = Raise (KeyError "ayah_penghasilan")
  | Some _, None => clean_data df = Raise (KeyError "ibu_penghasilan")
  | Some _, Some _ => ∃ df', clean_data df = Ok df'
  end.
Proof. exact (clean_data_cases df). Qed.

Lemma clean_cell_idemp (c : string) (v : cell) :
  clean_cell c (clean_cell c v) = clean_cell c v.
Proof.
  unfold clean_cell. destruct (decide (v = NaN)) as [->|Hv].
  - rewrite decide_False by done. rewrite decide_False; [done|]. by intros [_ ?].
  - destruct (decide (c ∈ salary_columns ∧ v = Str "\N")) as [[Hc ->]|Hs].
    + rewrite decide_False by done. rewrite decide_False; [done|]. by intros [_ ?].
    + rewrite decide_False by done. by rewrite decide_False.
Qed.

Lemma clean_data_Ok_columns (df df' : DataFrame) :
  clean_data df = Ok df' →
  nrows df' = nrows df ∧
  ∀ c, columns df' !! c = fmap (clean_cell c) <$> columns df !! c.
Proof.
  intros Hrun. pose proof (clean_data_cases df) as Hout.
  destruct (columns df !! "ayah_penghasilan") as [ayah|] eqn:Ha; [|congruence].
  destruct (columns df !! "ibu_penghasilan") as [ibu|] eqn:Hb; [|congruence].
  destruct (clean_data_columns df ayah ibu Ha Hb) as (df1 & Hrun1 & Hn & Hcols).
  assert (df1 = df') as -> by congruence. done.
Qed.

(** X2: cleaning a cleaned table changes nothing. *)
Theorem clean_data_idempotent (df df' : DataFrame) :
  clean_data df = Ok df' → clean_data df' = Ok df'.
Proof.
  intros Hrun. destruct (clean_data_Ok_columns df df' Hrun) as [Hn Hcols].
  pose proof (clean_data_cases df) as Hout.
  destruct (columns df !! "ayah_penghasilan") as [ayah|] eqn:Ha; [|congruence].
  destruct (columns df !! "ibu_penghasilan") as [ibu|] eqn:Hb; [|congruence].
  destruct (clean_data_columns df' (clean_cell "ayah_penghasilan" <$> ayah)
              (clean_cell "ibu_penghasilan" <$> ibu)) as (df2 & Hrun2 & Hn2 & Hcols2).
  { by rewrite Hcols, Ha. }
  { by rewrite Hcols, Hb. }
  rewrite Hrun2. f_equal. destruct df2 as [n2 m2], df' as [n' m']. simpl in *.
  f_equal; [done|]. apply map_eq. intros c. rewrite Hcols2, Hcols.
  destruct (columns df !! c) as [col|]; [|done]. simpl. f_equal.
  rewrite <- list_fmap_compose. apply list_fmap_ext. intros _ v _. simpl.
  apply clean_cell_idemp.
Qed.

Lemma clean_data_idempotent_witness :
  ∃ df', clean_data dirty_sample = Ok df' ∧ clean_data df' = Ok df'.
Proof.
  eexists. split; [vm_compute; reflexivity|].
  apply (clean_data_idempotent dirty_sample). vm_compute. reflexivity.
Defined.

(** ** Value counts on a cleaned table *)

Lemma total_count_bump (x : cell) (t : counts) :
  total_count (bump x t) = S (total_count t).
Proof.
  assert (∀ (a : nat) l, sum_list (a :: l) = a + sum_list l) as Hcons by done.
  unfold total_count. induction t as [|[y n] t IH]; [reflexivity|].
  cbn [bump]. destruct (decide (x = y)); [reflexivity|].
  rewrite !fmap_cons, !Hcons, IH. lia.
Qed.

Lemma total_count_tally (l : list cell) : total_count (tally l) = length l.
Proof.
  induction l as [|x l IH] using rev_ind; [reflexivity|].
  rewrite tally_snoc, total_count_bump, IH, length_app. simpl. lia.
Qed.

Lemma total_count_value_counts (col : list cell) :
  total_count (value_counts col) = length (dropna col).
Proof.
  unfold total_count. rewrite (value_counts_Permutation col).
  apply total_count_tally.
Qed.

(** X3: after [clean_data] no cell is missing, so the value counts of any
    column add up to the number of rows: every row is counted in every
    chart. *)
Theorem cleaned_counts_total (df0 df : DataFrame) (c : string) (col : list cell) :
  well_formed df0 →
  clean_data df0 = Ok df →
  columns df !! c = Some col →
  (NaN ∉ col) ∧
  ∃ s, column_counts df c = Ok s ∧ total_count s = nrows df.
Proof.
  intros Hwf Hrun Hcol. destruct (clean_data_Ok_columns df0 df Hrun) as [Hn Hcols].
  pose proof Hcol as Hcol'.
  rewrite Hcols in Hcol. destruct (columns df0 !! c) as [col0|] eqn:E; [|done].
  simpl in Hcol. injection Hcol as <-.
  assert (NaN ∉ clean_cell c <$> col0) as Hnan.
  { intros (v & Hv & _)%list_elem_of_fmap. by apply (clean_cell_not_NaN c v). }
  split; [done|]. exists (value_counts (clean_cell c <$> col0)). split.
  - by apply column_counts_Some.
  - rewrite total_count_value_counts. unfold dropna. rewrite filter_all.
    + rewrite length_fmap, Hn. by apply (Hwf c).
    + intros v Hv ->. done.
Qed.

Lemma cleaned_counts_total_witness :
  ∃ df col, clean_data dirty_sample = Ok df ∧ columns df !! "domisili" = Some col ∧
    (NaN ∉ col) ∧
    ∃ s, column_counts df "domisili" = Ok s ∧ total_count s = nrows df.
Proof.
  assert (well_formed dirty_sample) as Hwf
    by (apply (bool_decide_unpack _); vm_compute; reflexivity).
  eexists _, _. split; [vm_compute; reflexivity|]. split; [vm_compute; reflexivity|].
  apply (cleaned_counts_total dirty_sample _ "domisili" _ Hwf); vm_compute; reflexivity.
Defined.

(** ** main: what it does with exceptions *)

Lemma try_except_total (body : St unit) (handler : exn → St unit) (page : list element) :
  (∀ e p, ∃ p', handler e p = (Ok tt, p')) →
  ∃ page', try_except body handler page = (Ok tt, page').
Proof.
  intros Hh. unfold try_except. destruct (body page) as [[[]|e] p]; [eauto|apply Hh].
Qed.

(** X4: [main] never raises: whatever the parser returns or raises,
    whatever the table holds and whichever checkboxes are set, the call
    returns normally, any exception of the sections having been turned into
    an error message. *)
Theorem main_never_raises read_csv (uploaded_file : option string)
    (widget : string → option bool) (page : list element) :
  ∃ page', main read_csv uploaded_file widget page = (Ok tt, page').
Proof.
  unfold main. unfold mbind at 1 2 3 4. unfold St_bind, st_bind, emit.
  destruct uploaded_file as [file|].
  - apply try_except_total. intros e p. by eexists.
  - by eexists.
Qed.

(** X5: when [clean_data] raises on the loaded table, [main] shows the
    title, the sidebar header and the uploader, then the error message with
    the text of the exception and the hint about the expected format: no
    checkbox, no section and no export. *)
Theorem main_clean_data_error read_csv (file : string) (widget : string → option bool)
    (df0 : DataFrame) (e : exn) (page : list element) :
  read_csv load_options file = Ok df0 →
  clean_data df0 = Raise e →
  main read_csv (Some file) widget page
  = (Ok tt,
     page ++ [Title "📊 Dashboard Analisis Data Pendaftaran Siswa"; Markdown "---";
              SidebarHeader "⚙️ Pengaturan Analisis";
              FileUploader "Pilih file CSV data pendaftaran";
              Error ("❌ Error memproses data: " +:+ str_exn e);
              Info "Pastikan format CSV sesuai dengan template yang diharapkan" []]).
Proof.
  intros Hread Hclean.
  unfold main, load_data, try_except, mbind, St_bind, st_bind, lift, emit, mret, St_ret,
    st_ret.
  rewrite Hread. simpl. rewrite Hclean. simpl.
  by rewrite <- !app_assoc.
Qed.

Lemma main_clean_data_error_witness :
  main (λ _ _, Ok (mkDataFrame 1 {[ "ibu_penghasilan" := [Str "\N"] ]}))
       (Some "") (λ _, None) []
  = (Ok tt,
     [Title "📊 Dashboard Analisis Data Pendaftaran Siswa"; Markdown "---";
      SidebarHeader "⚙️ Pengaturan Analisis";
      FileUploader "Pilih file CSV data pendaftaran";
      Error "❌ Error memproses data: 'ayah_penghasilan'";
      Info "Pastikan format CSV sesuai dengan template yang diharapkan" []]).
Proof.
  exact (main_clean_data_error
           (λ _ _, Ok (mkDataFrame 1 {[ "ibu_penghasilan" := [Str "\N"] ]}))
           "" (λ _, None) _ (KeyError "ayah_penghasilan") [] eq_refl eq_refl).
Defined.

(** ** The sections on a table without rows *)

Lemma raises_lift {A} (r : result A) (e : exn) : r = Raise e → raises (lift r) e [].
Proof. intros -> page. by rewrite app_nil_r. Qed.




Lemma raises_px_bar (title : string) (labels : list cell) (values : list (option nat)) :
  labels = [] → values = [] →
  ∃ msg, raises (px_bar title labels values) (ValueError msg) [].
Proof. intros -> ->. eexists. by apply raises_lift. Qed.





(** ** summary_statistics *)

Lemma nunique_le_length (col : list cell) : nunique col ≤ length col.
Proof.
  unfold nunique. rewrite <- (length_fmap fst).
  etrans; [|apply (length_filter (λ v, v ≠ NaN))].
  apply submseteq_length, NoDup_submseteq; [apply keys_tally|].
  intros v Hv. by apply keys_tally.
Qed.

Lemma nunique_occurrences (col : list cell) (v : cell) :
  v ∈ col → v ≠ NaN → 1 ≤ nunique col.
Proof.
  intros Hv Hnan. rewrite <- value_counts_length.
  destruct (value_counts_cons col v Hv Hnan) as (e & s & ->). simpl. lia.
Qed.

Lemma count_py_eq (lit : string) (col : list cell) :
  length (filter (λ v, py_eq v lit = true) col) = occurrences (Str lit) col.
Proof.
  unfold occurrences. f_equal. apply list_filter_iff. intros v.
  destruct v as [|s|z]; simpl; try (split; [done|by intros [=]]).
  rewrite bool_decide_eq_true. split; [by intros ->|by intros [= ->]].
Qed.

(** X7: [summary_statistics] completes on every table that has the three
    columns it reads, with or without rows, and shows the number of rows,
    the number of distinct provinces, the number of distinct schools and
    the number of rows whose domicile is exactly 'JAWA BARAT'; none of the
    last three exceeds the number of rows. *)
Theorem summary_statistics_metrics (df : DataFrame) (provinces schools domisili : list cell) :
  well_formed df →
  columns df !! "alamat_propinsi" = Some provinces →
  columns df !! "asal_sekolah" = Some schools →
  columns df !! "domisili" = Some domisili →
  returns (summary_statistics df) tt
    [Header "📈 Statistik Ringkasan";
     Metric "Total Calon Murid" (nrows df);
     Metric "Jumlah Provinsi" (nunique provinces);
     Metric "Jumlah Sekolah Asal" (nunique schools);
     Metric "Siswa dari Jawa Barat" (occurrences (Str "JAWA BARAT") domisili);
     Subheader "Insights Utama";
     Write "**Key Findings dari Analisis Data:**" []] ∧
  nunique provinces ≤ nrows df ∧
  nunique schools ≤ nrows df ∧
  occurrences (Str "JAWA BARAT") domisili ≤ nrows df.
Proof.
  intros Hwf Hp Hs Hd.
  pose proof (Hwf _ _ Hp) as Lp. pose proof (Hwf _ _ Hs) as Ls.
  pose proof (Hwf _ _ Hd) as Ld. simpl in Lp, Ls, Ld.
  split; [|split; [|split]].
  - eapply returns_eq.
    + unfold summary_statistics.
      rewrite (getitem_Some _ _ _ Hp), (getitem_Some _ _ _ Hs), (getitem_Some _ _ _ Hd).
      repeat step.
    + simpl. by rewrite count_py_eq.
  - rewrite <- Lp. apply nunique_le_length.
  - rewrite <- Ls. apply nunique_le_length.
  - rewrite <- Ld. apply length_filter.
Qed.

Lemma summary_statistics_metrics_witness :
  returns (summary_statistics (one_row "Budi")) tt
    [Header "📈 Statistik Ringkasan";
     Metric "Total Calon Murid" 1;
     Metric "Jumlah Provinsi" 1;
     Metric "Jumlah Sekolah Asal" 1;
     Metric "Siswa dari Jawa Barat" 1;
     Subheader "Insights Utama";
     Write "**Key Findings dari Analisis Data:**" []].
Proof.
  assert (well_formed (one_row "Budi")) as Hwf
    by (apply (bool_decide_unpack _); vm_compute; reflexivity).
  exact (proj1 (summary_statistics_metrics (one_row "Budi") _ _ _ Hwf
                  eq_refl eq_refl eq_refl)).
Defined.

(** ** The combined category: order and range *)

Lemma get_max_income_bracket (i : nat) (a : string) :
  create_salary_order !! i = Some a →
  bracket_bounds !! i = Some (get_max_income (Str a)).
Proof.
  intros Ha.
  repeat (destruct i as [|i]; [by injection Ha as <-|]).
  simpl in Ha. done.
Qed.

Lemma StronglySorted_lookup_le (l : list Z) (i j : nat) (x y : Z) :
  StronglySorted Z.le l → l !! i = Some x → l !! j = Some y → i ≤ j → (x ≤ y)%Z.
Proof.
  intros Hl. revert i j. induction Hl as [|z l Hl IH Hz]; intros i j Hi Hj Hle.
  - by rewrite lookup_nil in Hi.
  - destruct i as [|i], j as [|j]; simpl in *; simplify_eq.
    + lia.
    + rewrite Forall_forall in Hz. apply Hz. by eapply list_elem_of_lookup_2.
    + lia.
    + apply (IH i j); [done|done|lia].
Qed.

Lemma get_max_income_bracket_order (i i' : nat) (a a' : string) :
  create_salary_order !! i = Some a →
  create_salary_order !! i' = Some a' →
  i ≤ i' →
  (get_max_income (Str a) ≤ get_max_income (Str a'))%Z.
Proof.
  intros Ha Ha' Hle.
  apply (StronglySorted_lookup_le bracket_bounds i i');
    [|by apply get_max_income_bracket|by apply get_max_income_bracket|done].
  apply (bool_decide_unpack _). vm_compute. reflexivity.
Qed.

Lemma income_bucket_monotone (total total' : Z) :
  (total ≤ total')%Z →
  category_rank (income_bucket total) ≤ category_rank (income_bucket total').
Proof.
  intros Hle. unfold income_bucket.
  repeat (case Z.leb_spec; intros ?); try lia; vm_compute; lia.
Qed.

(** X8: the combined category follows the order of the brackets: moving
    the father, the mother or both to a bracket that comes later in
    [create_salary_order] never gives an earlier category among the five. *)
Theorem higher_bracket_not_lower_category (i i' j j' : nat) (a a' b b' : string) :
  create_salary_order !! i = Some a →
  create_salary_order !! i' = Some a' →
  create_salary_order !! j = Some b →
  create_salary_order !! j' = Some b' →
  i ≤ i' → j ≤ j' →
  category_rank (get_income_category (Str a) (Str b))
  ≤ category_rank (get_income_category (Str a') (Str b')).
Proof.
  intros Ha Ha' Hb Hb' Hi Hj. unfold get_income_category. cbv zeta.
  apply income_bucket_monotone.
  pose proof (get_max_income_bracket_order i i' a a' Ha Ha' Hi).
  pose proof (get_max_income_bracket_order j j' b b' Hb Hb' Hj). lia.
Qed.

Lemma higher_bracket_not_lower_category_witness :
  category_rank (get_income_category (Str "0 - 2.500.000") (Str "5.000.001 - 7.500.000"))
  ≤ category_rank (get_income_category (Str "10.000.001 - 20.000.000")
                     (Str "5.000.001 - 7.500.000")).
Proof.
  apply (higher_bracket_not_lower_category 0 4 2 2); (reflexivity || lia).
Defined.

Lemma mapM_result_Forall2 {A B} (f : A → result B) (l : list A) (k : list B) :
  mapM f l = Ok k → Forall2 (λ x y, f x = Ok y) l k.
Proof.
  revert k. induction l as [|x l IH]; intros k; simpl.
  - intros [= <-]. constructor.
  - destruct (f x) as [y|e] eqn:Ex; [|done]. simpl.
    destruct (mapM f l) as [k'|e] eqn:El; [|done]. simpl.
    intros [= <-]. constructor; [done|]. by apply IH.
Qed.

Lemma combined_income_row_Ok (row : string → result cell) (v : cell) :
  combined_income_row row = Ok v → ∃ a b, v = Str (get_income_category a b).
Proof.
  unfold combined_income_row.
  destruct (row "ayah_penghasilan") as [a|]; [|done]. simpl.
  destruct (row "ibu_penghasilan") as [b|]; [|done]. simpl.
  intros [= <-]. eauto.
Qed.

Lemma get_income_category_label (a b : cell) :
  get_income_category a b ∈ income_categories.
Proof.
  unfold get_income_category, income_bucket, income_categories. cbv zeta.
  repeat (case Z.leb_spec; intros ?); set_solver.
Qed.

(** X9: when the derived column can be computed, it has one cell per row,
    every cell holds one of the five category labels, never a missing
    value, and so the chart of the combined income has at most five
    slices. *)
Theorem derived_column_labels (df df' : DataFrame) :
  add_combined_income_category df = Ok df' →
  ∃ col, columns df' !! "combined_income_category" = Some col ∧
    length col = nrows df ∧
    (∀ v, v ∈ col → ∃ label, v = Str label ∧ label ∈ income_categories) ∧
    length (value_counts col) ≤ 5.
Proof.
  unfold add_combined_income_category.
  destruct (apply_rows df combined_income_row) as [col|e] eqn:Hrows; [|done].
  simpl. intros [= <-]. exists col.
  apply mapM_result_Forall2 in Hrows.
  assert (∀ v, v ∈ col → ∃ label, v = Str label ∧ label ∈ income_categories) as Hlab.
  { intros v Hv. apply list_elem_of_lookup in Hv as [i Hi].
    destruct (Forall2_lookup_r _ _ _ _ _ Hrows Hi) as (x & _ & Hx).
    apply combined_income_row_Ok in Hx as (a & b & ->).
    eexists. split; [done|apply get_income_category_label]. }
  split; [apply lookup_insert_eq|]. split; [|split; [done|]].
  - apply Forall2_length in Hrows. by rewrite length_seq in Hrows.
  - rewrite <- (length_fmap fst).
    change 5 with (length (Str <$> income_categories)).
    apply submseteq_length, NoDup_submseteq; [apply value_counts_NoDup|].
    intros v (Hv & _)%value_counts_keys.
    destruct (Hlab v Hv) as (label & -> & Hl). by apply list_elem_of_fmap_2.
Qed.

Lemma derived_column_labels_witness :
  ∃ col, columns (setitem income_sample "combined_income_category"
                    [Str "5-10 Juta"; Str "> 50 Juta"; Str "≤ 5 Juta"])
           !! "combined_income_category" = Some col ∧
    length col = nrows income_sample ∧
    (∀ v, v ∈ col → ∃ label, v = Str label ∧ label ∈ income_categories) ∧
    length (value_counts col) ≤ 5.
Proof.
  apply (derived_column_labels income_sample). vm_compute. reflexivity.
Defined.

(** ** The insights name a most frequent value *)

Lemma value_counts_head_mode (col : list cell) (top : cell) (n : nat) (s : counts) :
  value_counts col = (top, n) :: s → mode_of col top n.
Proof.
  intros E.
  assert ((top, n) ∈ value_counts col) as Hin by (rewrite E; left).
  apply value_counts_elem_of in Hin as (Hin & Hnan & Hn).
  split; [done|]. split; [done|]. split; [done|].
  intros v Hv. destruct (decide (v ∈ col)) as [Hvc|Hvc].
  - assert ((v, occurrences v col) ∈ value_counts col) as Hvin
      by (by apply value_counts_elem_of).
    pose proof (value_counts_sorted col) as Hsorted.
    pose proof (value_counts_NoDup col) as Hnd.
    rewrite E in Hvin, Hsorted, Hnd.
    apply elem_of_cons in Hvin as [[= -> ->]|Hvin]; [lia|].
    apply StronglySorted_cons in Hsorted as [Hall _].
    rewrite Forall_forall in Hall. apply (Hall _ Hvin).
  - assert (occurrences v col = 0); [|lia].
    destruct (occurrences v col) eqn:Eo; [done|].
    exfalso. apply Hvc, occurrences_pos. lia.
Qed.

Lemma head_cons (n : nat) (e : cell * nat) (s : counts) :
  head (S n) (e :: s) = e :: head n s.
Proof. reflexivity. Qed.

(** X10: on a table whose [domisili] and [kategori] columns each hold a
    value, [demographic_analysis] completes, and each of its two insights
    names a most frequent value of its column with the number of rows
    that hold it. *)
Theorem demographic_insights (df : DataFrame) (domisili kategori : list cell) :
  columns df !! "domisili" = Some domisili →
  columns df !! "kategori" = Some kategori →
  (∃ v, v ∈ domisili ∧ v ≠ NaN) →
  (∃ v, v ∈ kategori ∧ v ≠ NaN) →
  ∃ top n top' n',
    returns (demographic_analysis df) tt
      [Header "📊 Analisis Demografis";
       Subheader "Distribusi Berdasarkan Domisili";
       Pie "Sebaran Domisili Calon Murid"
         (index_of (value_counts domisili)) (values_of (value_counts domisili));
       Info "**Insight:** {} mendominasi dengan {} siswa ({}/{})"
         [top; Num (Z.of_nat n); Num (Z.of_nat n); Num (Z.of_nat (nrows df))];
       Subheader "Distribusi Berdasarkan Kategori";
       Bar "Jumlah Calon Murid per Kategori"
         (index_of (value_counts kategori)) (values_of (value_counts kategori));
       Info "**Insight:** Mayoritas pendaftar adalah kategori {} dengan {} siswa"
         [top'; Num (Z.of_nat n')]] ∧
    mode_of domisili top n ∧ mode_of kategori top' n'.
Proof.
  intros Hd Hk (v & Hv & Hvn) (w & Hw & Hwn).
  destruct (value_counts_cons domisili v Hv Hvn) as ([top n] & s & E).
  destruct (value_counts_cons kategori w Hw Hwn) as ([top' n'] & s' & E').
  exists top, n, top', n'. split; [|split; by eapply value_counts_head_mode].
  eapply returns_eq.
  - unfold demographic_analysis, domicile_counts, category_counts.
    rewrite (column_counts_Some _ _ _ Hd), (column_counts_Some _ _ _ Hk), E, E'.
    repeat step.
  - rewrite E, E'. reflexivity.
Qed.

Lemma demographic_insights_witness :
  ∃ top n top' n',
    mode_of [Str "JAWA BARAT"] top n ∧ mode_of [Str "JAWA BARAT"] top' n'.
Proof.
  destruct (demographic_insights (one_row "Budi") [Str "JAWA BARAT"] [Str "JAWA BARAT"]
              eq_refl eq_refl)
    as (top & n & top' & n' & _ & H1 & H2);
    [exists (Str "JAWA BARAT"); split; [left|done]..|].
  by exists top, n, top', n'.
Defined.

(** X11: on a table whose [alamat_propinsi] and [alamat_kabupaten]
    columns each hold a value, [geographical_analysis] completes; its
    insight names a most frequent province and a most frequent kabupaten
    (the cut to ten entries keeps the first one) and reports the number of
    distinct provinces. *)
Theorem geographical_insights (df : DataFrame) (propinsi kabupaten : list cell) :
  columns df !! "alamat_propinsi" = Some propinsi →
  columns df !! "alamat_kabupaten" = Some kabupaten →
  (∃ v, v ∈ propinsi ∧ v ≠ NaN) →
  (∃ v, v ∈ kabupaten ∧ v ≠ NaN) →
  ∃ top n top' n',
    returns (geographical_analysis df) tt
      [Header "🗺️ Analisis Geografis";
       Subheader "Sebaran Berdasarkan Provinsi";
       Bar "Distribusi Provinsi Asal"
         (index_of (value_counts propinsi)) (values_of (value_counts propinsi));
       Subheader "Top 10 Kabupaten/Kota";
       Bar "Top 10 Kabupaten/Kota Asal"
         (index_of (head 10 (value_counts kabupaten)))
         (values_of (head 10 (value_counts kabupaten)));
       Info "**Insights Geografis:** {} ({} siswa); {} ({} siswa); {} provinsi"
         [top; Num (Z.of_nat n); top'; Num (Z.of_nat n');
          Num (Z.of_nat (nunique propinsi))]] ∧
    mode_of propinsi top n ∧ mode_of kabupaten top' n' ∧
    1 ≤ nunique propinsi.
Proof.
  intros Hp Hk (v & Hv & Hvn) (w & Hw & Hwn).
  destruct (value_counts_cons propinsi v Hv Hvn) as ([top n] & s & E).
  destruct (value_counts_cons kabupaten w Hw Hwn) as ([top' n'] & s' & E').
  exists top, n, top', n'.
  split; [|split; [|split]]; try (by eapply value_counts_head_mode).
  - eapply returns_eq.
    + unfold geographical_analysis, province_counts, regency_counts.
      rewrite (column_counts_Some _ _ _ Hp), (column_counts_Some _ _ _ Hk), E, E'.
      repeat step.
    + rewrite <- (value_counts_length propinsi), E, E'. reflexivity.
  - by eapply nunique_occurrences.
Qed.

Lemma geographical_insights_witness :
  ∃ top n top' n',
    mode_of [Str "JAWA BARAT"] top n ∧ mode_of [Str "JAWA BARAT"] top' n'.
Proof.
  destruct (geographical_insights (one_row "Budi") [Str "JAWA BARAT"] [Str "JAWA BARAT"]
              eq_refl eq_refl)
    as (top & n & top' & n' & _ & H1 & H2 & _);
    [exists (Str "JAWA BARAT"); split; [left|done]..|].
  by exists top, n, top', n'.
Defined.

Lemma dropna_app (l k : list cell) : dropna (l ++ k) = dropna l ++ dropna k.
Proof. apply filter_app. Qed.

Lemma value_counts_dropna (l : list cell) : value_counts (dropna l) = value_counts l.
Proof.
  unfold value_counts. f_equal. f_equal. unfold dropna.
  apply filter_all. by intros v [Hv _]%list_elem_of_filter.
Qed.

Lemma occurrences_app (v : cell) (l k : list cell) :
  occurrences v (l ++ k) = occurrences v l + occurrences v k.
Proof. unfold occurrences. by rewrite filter_app, length_app. Qed.

(** X12: on a table whose [tujuan1] column holds a value and whose three
    campus columns hold at least one, [school_preference_analysis]
    completes; the campus chart counts the three campus columns together,
    and the insight names a most frequent first choice and a campus chosen
    most often over the three columns. *)
Theorem school_preference_insights (df : DataFrame) (tujuan1 kampus1 kampus2 kampus3 : list cell) :
  columns df !! "tujuan1" = Some tujuan1 →
  columns df !! "kampus1" = Some kampus1 →
  columns df !! "kampus2" = Some kampus2 →
  columns df !! "kampus3" = Some kampus3 →
  (∃ v, v ∈ tujuan1 ∧ v ≠ NaN) →
  (∃ v, v ∈ kampus1 ++ kampus2 ++ kampus3 ∧ v ≠ NaN) →
  ∃ top n top' n',
    returns (school_preference_analysis df) tt
      [Header "🎯 Analisis Preferensi Sekolah";
       Subheader "Pilihan Pertama (Tujuan 1)";
       Pie "Distribusi Pilihan Pertama"
         (index_of (value_counts tujuan1)) (values_of (value_counts tujuan1));
       Subheader "Preferensi Kampus";
       Bar "Popularitas Kampus"
         (index_of (value_counts (kampus1 ++ kampus2 ++ kampus3)))
         (values_of (value_counts (kampus1 ++ kampus2 ++ kampus3)));
       Success "**Insights Preferensi:** {} ({} siswa); {} ({} pilihan)"
         [top; Num (Z.of_nat n); top'; Num (Z.of_nat n')]] ∧
    mode_of tujuan1 top n ∧
    mode_of (kampus1 ++ kampus2 ++ kampus3) top' n' ∧
    n' = occurrences top' kampus1 + occurrences top' kampus2 + occurrences top' kampus3.
Proof.
  intros Ht H1 H2 H3 (v & Hv & Hvn) (w & Hw & Hwn).
  destruct (value_counts_cons tujuan1 v Hv Hvn) as ([top n] & s & E).
  destruct (value_counts_cons _ w Hw Hwn) as ([top' n'] & s' & E').
  assert (campus_counts df = Ok ((top', n') :: s')) as Hcampus.
  { unfold campus_counts, all_campus, campus_cols, for_each.
    rewrite (getitem_Some _ _ _ H1). simpl. rewrite (getitem_Some _ _ _ H2). simpl.
    rewrite (getitem_Some _ _ _ H3). simpl.
    rewrite <- !dropna_app, value_counts_dropna, <- app_assoc. by rewrite E'. }
  pose proof (value_counts_head_mode _ _ _ _ E') as Hmode.
  exists top, n, top', n'.
  split; [|split; [by eapply value_counts_head_mode|split; [done|]]].
  - eapply returns_eq.
    + unfold school_preference_analysis, tujuan1_counts.
      rewrite (column_counts_Some _ _ _ Ht), Hcampus, E.
      repeat step.
    + rewrite E, E'. reflexivity.
  - destruct Hmode as (_ & _ & -> & _). rewrite !occurrences_app. lia.
Qed.

Lemma school_preference_insights_witness :
  ∃ top' n',
    mode_of ([Str "JAWA BARAT"] ++ [Str "JAWA BARAT"] ++ [Str "JAWA BARAT"]) top' n' ∧
    n' = occurrences top' [Str "JAWA BARAT"] + occurrences top' [Str "JAWA BARAT"]
         + occurrences top' [Str "JAWA BARAT"].
Proof.
  destruct (school_preference_insights (one_row "Budi") [Str "JAWA BARAT"]
              [Str "JAWA BARAT"] [Str "JAWA BARAT"] [Str "JAWA BARAT"]
              eq_refl eq_refl eq_refl eq_refl)
    as (top & n & top' & n' & _ & _ & H2 & H3);
    [exists (Str "JAWA BARAT"); split; [left|done]..|].
  by exists top', n'.
Defined.

(** X13: on a table whose two occupation columns each hold a value,
    [parent_occupation_analysis] completes, and its insight names a most
    frequent occupation of the father and of the mother: the cut to eight
    entries keeps the first one. *)
Theorem parent_occupation_insights (df : DataFrame) (ayah ibu : list cell) :
  columns df !! "ayah_pekerjaan" = Some ayah →
  columns df !! "ibu_pekerjaan" = Some ibu →
  (∃ v, v ∈ ayah ∧ v ≠ NaN) →
  (∃ v, v ∈ ibu ∧ v ≠ NaN) →
  ∃ top n top' n',
    returns (parent_occupation_analysis df) tt
      [Header "💼 Analisis Pekerjaan Orang Tua";
       Subheader "Pekerjaan Ayah";
       Bar "Top 8 Pekerjaan Ayah"
         (index_of (head 8 (value_counts ayah))) (values_of (head 8 (value_counts ayah)));
       Subheader "Pekerjaan Ibu";
       Bar "Top 8 Pekerjaan Ibu"
         (index_of (head 8 (value_counts ibu))) (values_of (head 8 (value_counts ibu)));
       Info "**Insights Pekerjaan:** {} ({} orang); {} ({} orang)"
         [top; Num (Z.of_nat n); top'; Num (Z.of_nat n')]] ∧
    mode_of ayah top n ∧ mode_of ibu top' n'.
Proof.
  intros Ha Hi (v & Hv & Hvn) (w & Hw & Hwn).
  destruct (value_counts_cons ayah v Hv Hvn) as ([top n] & s & E).
  destruct (value_counts_cons ibu w Hw Hwn) as ([top' n'] & s' & E').
  exists top, n, top', n'. split; [|split; by eapply value_counts_head_mode].
  eapply returns_eq.
  - unfold parent_occupation_analysis, ayah_job, ibu_job.
    rewrite (column_counts_Some _ _ _ Ha), (column_counts_Some _ _ _ Hi), E, E'.
    repeat step.
  - rewrite E, E'. reflexivity.
Qed.

Lemma parent_occupation_insights_witness :
  ∃ top n top' n',
    mode_of [Str "JAWA BARAT"] top n ∧ mode_of [Str "JAWA BARAT"] top' n'.
Proof.
  destruct (parent_occupation_insights (one_row "Budi") [Str "JAWA BARAT"]
              [Str "JAWA BARAT"] eq_refl eq_refl)
    as (top & n & top' & n' & _ & H1 & H2);
    [exists (Str "JAWA BARAT"); split; [left|done]..|].
  by exists top, n, top', n'.
Defined.

(** ** The sections read the report columns only *)

Lemma apply_rows_agree (df df' : DataFrame) :
  nrows df = nrows df' →
  getitem df "ayah_penghasilan" = getitem df' "ayah_penghasilan" →
  getitem df "ibu_penghasilan" = getitem df' "ibu_penghasilan" →
  apply_rows df combined_income_row = apply_rows df' combined_income_row.
Proof.
  intros Hn Ha Hb. unfold apply_rows. rewrite Hn.
  apply mapM_result_ext. intros i _.
  unfold combined_income_row, row_item. by rewrite Ha, Hb.
Qed.

Lemma income_analysis_page_agree (df df' : DataFrame) (page : list element) :
  nrows df = nrows df' →
  getitem df "ayah_penghasilan" = getitem df' "ayah_penghasilan" →
  getitem df "ibu_penghasilan" = getitem df' "ibu_penghasilan" →
  (income_analysis df page).2 = (income_analysis df' page).2.
Proof.
  intros Hn Ha Hb.
  unfold income_analysis, ayah_income, ibu_income, column_counts,
    add_combined_income_category.
  rewrite (apply_rows_agree df df' Hn Ha Hb), Ha, Hb.
  unfold mbind, St_bind, st_bind, lift, emit, mret, St_ret, st_ret.
  destruct (getitem df' "ayah_penghasilan") as [ayah|]; simpl; [|done].
  destruct (getitem df' "ibu_penghasilan") as [ibu|]; simpl; [|done].
  destruct (apply_rows df' combined_income_row) as [col|]; simpl.
  - repeat match goal with
           | |- context [px_bar ?t ?l ?v ?p] =>
               destruct (px_bar t l v p) as [[[]|?] ?]; simpl; [|done]
           end.
    unfold getitem, setitem. simpl. by rewrite !lookup_insert_eq.
  - repeat match goal with
           | |- context [px_bar ?t ?l ?v ?p] =>
               destruct (px_bar t l v p) as [[[]|?] ?]; simpl; [|done]
           end.
    done.
Qed.

(** X14: the sections read nothing but the sixteen report columns and the
    number of rows: two tables that agree on those give the same page in
    every section, whatever their other columns hold (the names of the
    pupils, for one). *)
Theorem sections_read_report_columns (df df' : DataFrame) (page : list element) :
  nrows df = nrows df' →
  (∀ c, c ∈ report_columns → columns df !! c = columns df' !! c) →
  summary_statistics df page = summary_statistics df' page ∧
  demographic_analysis df page = demographic_analysis df' page ∧
  geographical_analysis df page = geographical_analysis df' page ∧
  school_preference_analysis df page = school_preference_analysis df' page ∧
  parent_education_analysis df page = parent_education_analysis df' page ∧
  parent_occupation_analysis df page = parent_occupation_analysis df' page ∧
  (income_analysis df page).2 = (income_analysis df' page).2 ∧
  school_origin_analysis df page = school_origin_analysis df' page.
Proof.
  intros Hn Hcols.
  assert (∀ c, c ∈ report_columns → getitem df c = getitem df' c) as Hget
    by (intros c Hc; unfold getitem; by rewrite (Hcols c Hc)).
  repeat split.
  - unfold summary_statistics. by rewrite Hn, !(Hget _) by in_expected.
  - unfold demographic_analysis, domicile_counts, category_counts, column_counts.
    by rewrite Hn, !(Hget _) by in_expected.
  - unfold geographical_analysis, province_counts, regency_counts, column_counts.
    by rewrite !(Hget _) by in_expected.
  - unfold school_preference_analysis, tujuan1_counts, campus_counts, all_campus,
      campus_cols, for_each, column_counts.
    by rewrite !(Hget _) by in_expected.
  - unfold parent_education_analysis, ayah_edu, ibu_edu, column_counts.
    by rewrite !(Hget _) by in_expected.
  - unfold parent_occupation_analysis, ayah_job, ibu_job, column_counts.
    by rewrite !(Hget _) by in_expected.
  - apply income_analysis_page_agree; [done|apply Hget; in_expected..].
  - unfold school_origin_analysis, school_province, top_schools, column_counts.
    by rewrite !(Hget _) by in_expected.
Qed.

Lemma sections_read_report_columns_witness :
  one_row "Budi" ≠ one_row "Siti" ∧
  summary_statistics (one_row "Budi") [] = summary_statistics (one_row "Siti") [] ∧
  demographic_analysis (one_row "Budi") [] = demographic_analysis (one_row "Siti") [].
Proof.
  assert (∀ c, c ∈ report_columns →
               columns (one_row "Budi") !! c = columns (one_row "Siti") !! c) as Hcols.
  { apply Forall_forall. apply (bool_decide_unpack _). vm_compute. reflexivity. }
  split; [by vm_compute|].
  destruct (sections_read_report_columns (one_row "Budi") (one_row "Siti") [] eq_refl Hcols)
    as (Hs & Hd & _).
  exact (conj Hs Hd).
Defined.
